(** * ofxpostern: cache identity, report rendering and session run

    A shallow embedding of [ofxpostern.py].  Python strings are [string]s,
    dictionaries are [gmap]s, and the statements of the program run in a
    small state-and-exception monad whose state outlives a raised
    exception (what was printed or written before a [raise] stays
    printed or written). *)

From Stdlib Require Import Ascii String ZArith Lia.
From stdpp Require Import base strings gmap list pretty.

Local Open Scope Z_scope.
Local Open Scope nat_scope.

(** String concatenation computes on literals in this file. *)
#[local] Arguments String.append !s1 s2 : simpl nomatch.

(** ** Exceptions *)

Inductive exn : Type :=
  | KeyError (key : string)
  | ValueError (msg : string)
  | IndexError (msg : string)
  | TransportError (msg : string)
  | ParseError (msg : string)
  | FileNotFoundError (path : string)
  | NotModelled.

(** The outcome of evaluating an expression that may raise. *)
Definition Exc (A : Type) : Type := exn + A.

Definition exc_bind {A B} (f : A -> Exc B) (m : Exc A) : Exc B :=
  match m with
  | inl e => inl e
  | inr a => f a
  end.

Definition exc_map {A B} (f : A -> B) (m : Exc A) : Exc B :=
  exc_bind (fun a => inr (f a)) m.

(** ** Python values and the string methods the program calls *)

Inductive pyval : Type :=
  | VStr (s : string)
  | VInt (n : Z).

(** [str(v)] *)
Definition py_str (v : pyval) : string :=
  match v with
  | VStr s => s
  | VInt n => pretty n
  end.

Module Py.

(** [s.partition(sep)] for a one-character [sep]: the part before the
    first occurrence, the separator, the part after it; [(s, '', '')]
    when [sep] does not occur. *)
Fixpoint partition (sep : ascii) (s : string) : string * string * string :=
  match s with
  | EmptyString => (EmptyString, EmptyString, EmptyString)
  | String c s' =>
      if Ascii.eqb c sep then (EmptyString, String sep EmptyString, s')
      else
        let '(head, mid, tail) := partition sep s' in
        (String c head, mid, tail)
  end.

(** [s.rpartition(sep)] for a one-character [sep]: the part before the
    last occurrence, the separator, the part after it; [('', '', s)]
    when [sep] does not occur. *)
Fixpoint rpartition (sep : ascii) (s : string) : string * string * string :=
  match s with
  | EmptyString => (EmptyString, EmptyString, EmptyString)
  | String c s' =>
      let '(head, mid, tail) := rpartition sep s' in
      match mid with
      | String _ _ => (String c head, mid, tail)
      | EmptyString =>
          if Ascii.eqb c sep then (EmptyString, String sep EmptyString, s')
          else (EmptyString, EmptyString, String c tail)
      end
  end.

(** [s[n:]] *)
Fixpoint slice_from (n : nat) (s : string) : string :=
  match n, s with
  | O, _ => s
  | S _, EmptyString => EmptyString
  | S n', String _ s' => slice_from n' s'
  end.

(** [s.replace(old, new)] for one-character [old] and [new]. *)
Fixpoint replace (old new : ascii) (s : string) : string :=
  match s with
  | EmptyString => EmptyString
  | String c s' =>
      String (if Ascii.eqb c old then new else c) (replace old new s')
  end.

(** [c in s] *)
Fixpoint contains (c : ascii) (s : string) : bool :=
  match s with
  | EmptyString => false
  | String d s' => Ascii.eqb d c || contains c s'
  end.

(** [' ' * n] *)
Fixpoint spaces (n : nat) : string :=
  match n with
  | O => EmptyString
  | S n' => String " "%char (spaces n')
  end.

(** [under_char * n] *)
Fixpoint repeat_char (c : ascii) (n : nat) : string :=
  match n with
  | O => EmptyString
  | S n' => String c (repeat_char c n')
  end.

(** [format(v, str(w))] for an integer [w >= 1]: the format
    specification is then a bare width; a string is left-aligned in
    it, a number right-aligned, and nothing is ever truncated. *)
Definition justify (v : pyval) (w : nat) : string :=
  match v with
  | VStr s => s +:+ spaces (w - String.length s)
  | VInt n => spaces (w - String.length (pretty n)) +:+ pretty n
  end.

Definition format_width (v width : pyval) : Exc string :=
  match width with
  | VInt w => if (1 <=? w)%Z then inr (justify v (Z.to_nat w)) else inl NotModelled
  | VStr _ => inl NotModelled
  end.

(** [t.format(a0, a1, ...)] with automatic field numbering.  The fragment
    of the format mini-language that the program's templates can
    reach is covered: literal text, the escapes [{{] and [}}], the
    field [{}] and the field [{:{}}] whose specification is itself a
    field.  A lone brace is a [ValueError], a field without an
    argument left is an [IndexError]; any other replacement field is
    outside the fragment and yields [NotModelled]. *)
Fixpoint format (t : string) (args : list pyval) {struct t} : Exc string :=
  match t with
  | EmptyString => inr EmptyString
  | String c t1 =>
      if Ascii.eqb c "{" then
        match t1 with
        | EmptyString => inl (ValueError "Single '{' encountered in format string")
        | String c1 t2 =>
            if Ascii.eqb c1 "{" then exc_map (String "{"%char) (format t2 args)
            else if Ascii.eqb c1 "}" then
              match args with
              | [] => inl (IndexError "Replacement index out of range")
              | a :: args' => exc_map (String.append (py_str a)) (format t2 args')
              end
            else if Ascii.eqb c1 ":" then
              match t2 with
              | String "{" (String "}" (String "}" t5)) =>
                  match args with
                  | a :: w :: args' =>
                      exc_bind (fun field =>
                        exc_map (String.append field) (format t5 args'))
                        (format_width a w)
                  | _ => inl (IndexError "Replacement index out of range")
                  end
              | _ => inl NotModelled
              end
            else inl NotModelled
        end
      else if Ascii.eqb c "}" then
        match t1 with
        | String c1 t2 =>
            if Ascii.eqb c1 "}" then exc_map (String "}"%char) (format t2 args)
            else inl (ValueError "Single '}' encountered in format string")
        | EmptyString => inl (ValueError "Single '}' encountered in format string")
        end
      else exc_map (String c) (format t1 args)
  end.

End Py.

(** ** Statements

    A statement maps the state before it to its outcome and the state
    after it; the state is returned on both outcomes. *)

Definition ES (S A : Type) : Type := S -> Exc A * S.

Definition es_ret {S A} (a : A) : ES S A := fun s => (inr a, s).

Definition es_bind {S A B} (f : A -> ES S B) (m : ES S A) : ES S B :=
  fun s =>
    match m s with
    | (inl e, s') => (inl e, s')
    | (inr a, s') => f a s'
    end.

#[global] Instance ES_ret S : MRet (ES S) := @es_ret S.
#[global] Instance ES_bind S : MBind (ES S) := @es_bind S.

(** [raise e] *)
Definition raise {S A} (e : exn) : ES S A := fun s => (inl e, s).

(** Evaluating an expression that reads no state. *)
Definition eval {S A} (r : Exc A) : ES S A := fun s => (r, s).

Definition gets {S A} (f : S -> A) : ES S A := fun s => (inr (f s), s).

Definition modify {S} (f : S -> S) : ES S unit := fun s => (inr tt, f s).

(** [try: body  except KeyError: pass] *)
Definition try_except_KeyError {S} (body : ES S unit) : ES S unit :=
  fun s =>
    match body s with
    | (inl (KeyError _), s') => (inr tt, s')
    | r => r
    end.

(** [for x in l: body] *)
Fixpoint for_each {S A} (l : list A) (body : A -> ES S unit) : ES S unit :=
  match l with
  | [] => mret tt
  | x :: l' => body x ;; for_each l' body
  end.

(** [d[k]] on a dictionary *)
Definition getitem {S V} (d : gmap string V) (k : string) : ES S V :=
  eval (match d !! k with
        | Some v => inr v
        | None => inl (KeyError k)
        end).

(** ** Objects of the protocol library and of the run *)

(** The attributes of [testofx.OFXServerInstance] that the program reads. *)
Record OFXServerInstance : Type := {
  ofxurl : string;
  fid : string;
  org : string;
}.

(** The response object: [res.headers], [res.text]. *)
Record Response : Type := {
  headers : gmap string string;
  text : string;
}.

(** The parsed profile response, [testofx.OFXFile]: [profrs.signon] and
    [profrs.profile]. *)
Record OFXFile : Type := {
  signon : gmap string string;
  profile : gmap string string;
}.

(** The parsed command line. *)
Record Namespace : Type := {
  args_url : string;
  args_fid : option string;
  args_org : option string;
  parser_prog : string;
}.

(** What a run can change: standard output (one entry per [print]),
    the file system, the requests handed to the protocol client, the
    number of clock readings, and the module globals [fi_dir] and
    [req_results]. *)
Record world : Type := World {
  stdout : list string;
  dirs : gset string;
  files : gmap string string;
  sent : list (string * OFXServerInstance);
  clock : nat;
  fi_dir : string;
  req_results : gmap string Response;
}.

Definition M : Type -> Type := ES world.

Definition set_stdout (f : list string -> list string) (w : world) : world :=
  World (f (stdout w)) (dirs w) (files w) (sent w) (clock w) (fi_dir w) (req_results w).
Definition set_dirs (f : gset string -> gset string) (w : world) : world :=
  World (stdout w) (f (dirs w)) (files w) (sent w) (clock w) (fi_dir w) (req_results w).
Definition set_files (f : gmap string string -> gmap string string) (w : world) : world :=
  World (stdout w) (dirs w) (f (files w)) (sent w) (clock w) (fi_dir w) (req_results w).
Definition set_sent (f : list (string * OFXServerInstance) -> list (string * OFXServerInstance))
    (w : world) : world :=
  World (stdout w) (dirs w) (files w) (f (sent w)) (clock w) (fi_dir w) (req_results w).
Definition set_clock (f : nat -> nat) (w : world) : world :=
  World (stdout w) (dirs w) (files w) (sent w) (f (clock w)) (fi_dir w) (req_results w).
Definition set_fi_dir (d : string) (w : world) : world :=
  World (stdout w) (dirs w) (files w) (sent w) (clock w) d (req_results w).
Definition set_req_results (f : gmap string Response -> gmap string Response) (w : world) : world :=
  World (stdout w) (dirs w) (files w) (sent w) (clock w) (fi_dir w) (f (req_results w)).

(** [print(line)]; [print()] is [print ""]. *)
Definition print (line : string) : M unit :=
  modify (set_stdout (fun out => out ++ [line])).

(** [os.makedirs(path, mode=0o770, exist_ok=True)] where the call
    returns: the directory exists afterwards.  A call that raises (a
    regular file in the way, a name too long, no permission) ends the
    run inside [init]; those runs are not described here, and what is
    proved of the directories is proved of runs that went on past
    [init]. *)
Definition makedirs (path : string) : M unit :=
  modify (set_dirs (fun ds => {[ path ]} ∪ ds)).

(** [with open(path, 'w') as fd: fd.write(content)].  [open] raises
    [FileNotFoundError] when the directory part of [path], what
    precedes its last '/', is not an existing directory (an empty
    directory part is the root or the working directory, which
    exist); nothing is written then.  Otherwise the file holds exactly
    [content] afterwards, whatever it held before. *)
Definition write_file (path content : string) : M unit :=
  fun w =>
    let parent := (Py.rpartition "/" path).1.1 in
    if String.eqb parent "" || bool_decide (parent ∈ dirs w)
    then (inr tt, set_files (fun fs => <[ path := content ]> fs) w)
    else (inl (FileNotFoundError path), w).

(** *** Function-local variables

    A function whose local variables are assigned inside [try] blocks
    runs on the world paired with its locals. *)

Definition io {L A} (m : M A) : ES (world * L) A :=
  fun '(w, l) => let '(r, w') := m w in (r, (w', l)).

Definition local {L A} (f : L -> A) : ES (world * L) A :=
  gets (fun s => f (snd s)).

Definition assign {L} (f : L -> L) : ES (world * L) unit :=
  modify (fun s => (fst s, f (snd s))).

Definition with_locals {L A} (l0 : L) (body : ES (world * L) A) : M A :=
  fun w => let '(r, (w', _)) := body (w, l0) in (r, w').

(** ** The program *)

Definition PROGRAM_NAME : string := "ofxpostern".
Definition VERSION : string := "0.0.1".
Definition STR_HEADERS : string := "headers".
Definition STR_BODY : string := "body".
Definition debug : bool := true.

(** The local [url_fname] of [init]: the URL as a usable file name,
    [ofxurl.partition('/')[2][1:].replace('/','_').replace('&','+')]. *)
Definition url_fname (ofxurl : string) : string :=
  Py.replace "&" "+"
    (Py.replace "/" "_"
       (Py.slice_from 1 (Py.partition "/" ofxurl).2)).

(** The local [k_width] of [print_kv_list] after its first loop. *)
Definition k_width (kv_list : list (string * string)) : nat :=
  fold_left (fun k_width kv =>
               if k_width <? String.length kv.1 then String.length kv.1
               else k_width)
            kv_list 0.

Section Program.

(** The environment and the protocol library [testofx], which the
    program consumes through these interfaces. *)

(** [os.environ['HOME']] *)
Variable HOME : string.
(** [testofx.REQ_NAME_OFX_PROFILE] *)
Variable REQ_NAME_OFX_PROFILE : string.
(** [testofx.OFXServerInstance(url, fid, org)] *)
Variable new_OFXServerInstance :
  string -> option string -> option string -> OFXServerInstance.
(** [testofx.OFXTestClient(output=o).send_req(name, server)]: the lines
    the client prints and the response, or the error it raises. *)
Variable OFXTestClient_send_req :
  bool -> string -> OFXServerInstance -> list string * Exc Response.
(** [testofx.OFXFile(text)] *)
Variable new_OFXFile : string -> Exc OFXFile.
(** [time.asctime()] at the n-th reading of the clock *)
Variable time_asctime : nat -> string.
(** [json.dumps(dict(headers))] *)
Variable json_dumps : gmap string string -> string.
(** [str(args)] *)
Variable str_Namespace : Namespace -> string.

(** Module-level constants; each is the outcome of a [format] call
    evaluated when the module is loaded. *)
Definition DATA_DIR : Exc string :=
  Py.format "{}/.{}" [VStr HOME; VStr PROGRAM_NAME].

Definition FIS_DIR : Exc string :=
  exc_bind (fun data_dir => Py.format "{}/{}" [VStr data_dir; VStr "fi"]) DATA_DIR.

Definition FI_DIR_FMT : Exc string :=
  exc_bind (fun fis_dir => Py.format "{}/{}" [VStr fis_dir; VStr "{}-{}-{}"]) FIS_DIR.

Definition init (server : OFXServerInstance) : M unit :=
  let url_fname := url_fname (ofxurl server) in
  fmt ← eval FI_DIR_FMT;
  d ← eval (Py.format fmt [VStr url_fname; VStr (fid server); VStr (org server)]);
  modify (set_fi_dir d) ;;
  data_dir ← eval DATA_DIR;
  makedirs data_dir ;;
  fis_dir ← eval FIS_DIR;
  makedirs fis_dir ;;
  d ← gets fi_dir;
  makedirs d.

Definition print_debug (msg : string) : M unit :=
  if debug then
    line ← eval (Py.format "DEBUG: {}" [VStr msg]);
    print line
  else mret tt.

Definition print_header (msg : string) (lvl : Z) : M unit :=
  under_char ←
    (if (lvl =? 1)%Z then mret "#"%char
     else if (lvl =? 2)%Z then mret "="%char
     else if (lvl =? 3)%Z then mret "-"%char
     else
       m ← eval (Py.format "Unknown lvl: {}" [VInt lvl]);
       raise (ValueError m));
  print msg ;;
  print (Py.repeat_char under_char (String.length msg)).

Definition print_kv_list (kv_list : list (string * string)) : M unit :=
  let k_width := k_width kv_list in
  for_each kv_list (fun kv =>
    line ← eval (Py.format "{:{}} {}"
                   [VStr (kv.1 +:+ ":"); VInt (Z.of_nat k_width + 1); VStr kv.2]);
    print line).

Definition send_profile_req (server : OFXServerInstance) : M unit :=
  let req_name := REQ_NAME_OFX_PROFILE in
  res ← (fun w =>
           let '(out, r) := OFXTestClient_send_req debug req_name server in
           (r, set_stdout (fun o => o ++ out)
                 (set_sent (fun l => l ++ [(req_name, server)]) w)));
  let res_name_base := Py.replace " " "_" (Py.replace "/" "+" req_name) in
  d ← gets fi_dir;
  path ← eval (Py.format "{}/{}-{}" [VStr d; VStr res_name_base; VStr STR_HEADERS]);
  write_file path (json_dumps (headers res)) ;;
  d ← gets fi_dir;
  path ← eval (Py.format "{}/{}-{}" [VStr d; VStr res_name_base; VStr STR_BODY]);
  write_file path (text res) ;;
  modify (set_req_results (fun rs => <[ req_name := res ]> rs)).

(** Locals of [report_cli_fi]. *)
Record fi_locals : Type := {
  fi_list : list (string * string);
  city : string;
  state : string;
  postalcode : string;
  country : string;
}.

Definition set_fi_list (f : list (string * string) -> list (string * string))
    (l : fi_locals) : fi_locals :=
  {| fi_list := f (fi_list l); city := city l; state := state l;
     postalcode := postalcode l; country := country l |}.
Definition set_city (v : string) (l : fi_locals) : fi_locals :=
  {| fi_list := fi_list l; city := v; state := state l;
     postalcode := postalcode l; country := country l |}.
Definition set_state (v : string) (l : fi_locals) : fi_locals :=
  {| fi_list := fi_list l; city := city l; state := v;
     postalcode := postalcode l; country := country l |}.
Definition set_postalcode (v : string) (l : fi_locals) : fi_locals :=
  {| fi_list := fi_list l; city := city l; state := state l;
     postalcode := v; country := country l |}.
Definition set_country (v : string) (l : fi_locals) : fi_locals :=
  {| fi_list := fi_list l; city := city l; state := state l;
     postalcode := postalcode l; country := v |}.

(** Before their first assignment the locals hold nothing the
    function reads. *)
Definition fi_unbound : fi_locals :=
  {| fi_list := []; city := ""; state := ""; postalcode := ""; country := "" |}.

Definition report_cli_fi (profrs : OFXFile) : M unit :=
  with_locals fi_unbound (
    io (print_header "Financial Institution" 2) ;;
    io (print "") ;;

    assign (set_fi_list (fun _ => [])) ;;
    let output :=
      [ ("FINAME", "Name");
        ("ADDR1", "Address");
        ("ADDR2", "");
        ("ADDR3", "") ] in

    for_each output (fun tup =>
      try_except_KeyError (
        val ← getitem (profile profrs) tup.1;
        assign (set_fi_list (fun l => l ++ [(tup.2, val)])))) ;;

    assign (set_city "") ;;
    assign (set_state "") ;;
    assign (set_postalcode "") ;;

    try_except_KeyError (
      v ← getitem (profile profrs) "CITY";
      assign (set_city v) ;;
      v ← getitem (profile profrs) "STATE";
      assign (set_state v) ;;
      v ← getitem (profile profrs) "POSTALCODE";
      assign (set_postalcode v)) ;;

    c ← local city;
    s ← local state;
    p ← local postalcode;
    line ← eval (Py.format "{}, {} {}" [VStr c; VStr s; VStr p]);
    assign (set_fi_list (fun l => l ++ [("", line)])) ;;

    assign (set_country "") ;;

    try_except_KeyError (
      v ← getitem (profile profrs) "COUNTRY";
      assign (set_country v)) ;;

    c ← local country;
    assign (set_fi_list (fun l => l ++ [("", c)])) ;;

    l ← local fi_list;
    io (print_kv_list l) ;;

    io (print "")).

(** [report_cli_server] has the one local [fi_list]. *)
Definition report_cli_server (profrs : OFXFile) : M unit :=
  with_locals ([] : list (string * string)) (
    io (print_header "OFX Server" 2) ;;
    io (print "") ;;

    assign (fun _ => []) ;;

    try_except_KeyError (
      val ← getitem (signon profrs) "FID";
      assign (fun l => l ++ [("FID", val)])) ;;

    try_except_KeyError (
      val ← getitem (signon profrs) "ORG";
      assign (fun l => l ++ [("ORG", val)])) ;;

    try_except_KeyError (
      val ← getitem (profile profrs) "OFXURL";
      assign (fun l => l ++ [("URL", val)])) ;;

    l ← local id;
    io (print_kv_list l) ;;

    io (print "")).

Definition report_cli (profrs : OFXFile) : M unit :=
  report_cli_fi profrs ;;
  report_cli_server profrs.

(** [time.asctime()] *)
Definition asctime : M string :=
  fun w => (inr (time_asctime (clock w)), set_clock S w).

(** [main], from the parsed arguments on. *)
Definition main (args : Namespace) : M unit :=
  print_debug (str_Namespace args) ;;

  let server := new_OFXServerInstance (args_url args) (args_fid args) (args_org args) in

  init server ;;

  line ← eval (Py.format "{}: version {}" [VStr (parser_prog args); VStr VERSION]);
  print line ;;
  print "" ;;
  t ← asctime;
  line ← eval (Py.format "Start: {}" [VStr t]);
  print line ;;
  print "  Sending <PROFRQ>" ;;
  send_profile_req server ;;
  t ← asctime;
  line ← eval (Py.format "End:   {}" [VStr t]);
  print line ;;
  print "" ;;

  res ← (rs ← gets req_results; getitem rs REQ_NAME_OFX_PROFILE);
  profrs ← eval (new_OFXFile (text res));

  report_cli profrs.

End Program.

(** ** The identity derivation in the words of the specification *)

Module Spec.

(** Everything after the first [c]. *)
Fixpoint after_first (c : ascii) (s : string) : string :=
  match s with
  | EmptyString => EmptyString
  | String d s' => if Ascii.eqb d c then s' else after_first c s'
  end.

(** The string without its leading character. *)
Definition strip_leading (s : string) : string :=
  match s with
  | EmptyString => EmptyString
  | String _ s' => s'
  end.

Fixpoint map_chars (f : ascii -> ascii) (s : string) : string :=
  match s with
  | EmptyString => EmptyString
  | String c s' => String (f c) (map_chars f s')
  end.

(** Every '/' becomes '_' and every '&' becomes '+'. *)
Definition safe_char (c : ascii) : ascii :=
  if Ascii.eqb c "/" then "_"%char
  else if Ascii.eqb c "&" then "+"%char
  else c.

Definition transformed (url : string) : string :=
  map_chars safe_char (strip_leading (after_first "/" url)).

(** "<transformed>-<fid>-<org>" *)
Definition segment (url fid org : string) : string :=
  transformed url +:+ "-" +:+ fid +:+ "-" +:+ org.

(** The fixed base directory, [<home>/.ofxpostern/fi]. *)
Definition base_dir (home : string) : string :=
  home +:+ "/.ofxpostern/fi".

Definition cache_dir (home url fid org : string) : string :=
  base_dir home +:+ "/" +:+ segment url fid org.

End Spec.

(** No brace occurs in [s]. *)
Definition brace_free (s : string) : bool :=
  negb (Py.contains "{" s) && negb (Py.contains "}" s).

(** The value [init] leaves in the global [fi_dir]. *)
Definition derived_dir (home : string) (server : OFXServerInstance) (w : world) : string :=
  fi_dir (init home server w).2.

(** The per-identity segment is what follows the base directory and
    its separator in the derived path. *)
Definition is_segment (home : string) (server : OFXServerInstance) (w : world)
    (seg : string) : Prop :=
  derived_dir home server w = Spec.base_dir home +:+ "/" +:+ seg.

(** A '/' occurs in [url] after its scheme. *)
Definition slash_after_scheme (url : string) : Prop :=
  exists scheme host path, url = scheme +:+ "://" +:+ host +:+ "/" +:+ path.

(** The worlds used in examples: nothing printed, written or sent. *)
Definition empty_world : world := World [] ∅ ∅ [] 0 "" ∅.

(** The server identity [(url, fid, org)]. *)
Definition identity (url fid org : string) : OFXServerInstance :=
  {| ofxurl := url; fid := fid; org := org |}.



(** Cache keys under one URL tell any two different [(fid, org)] pairs
    apart. *)
Definition injective_in_fid_org (home url : string) : Prop :=
  forall fid1 org1 fid2 org2 w,
    (fid1, org1) <> (fid2, org2) ->
    derived_dir home (identity url fid1 org1) w
    <> derived_dir home (identity url fid2 org2) w.

(** The per-identity segment holds no '/'. *)
Definition segment_slash_free (home : string) (server : OFXServerInstance) : Prop :=
  forall w seg, is_segment home server w seg -> Py.contains "/" seg = false.

(** ** The report in the words of the specification *)

Module Render.

(** [s] right-padded with spaces to [n] characters. *)
Definition pad_to (n : nat) (s : string) : string :=
  s +:+ Py.spaces (n - String.length s).

(** The width of the longest label of a block. *)
Definition longest_label (kv_list : list (string * string)) : nat :=
  foldr Nat.max 0 (map (fun kv => String.length kv.1) kv_list).

(** A key/value line: the label with its colon, padded to the width
    of the longest label plus one, a single space, the value. *)
Definition kv_line (longest : nat) (kv : string * string) : string :=
  pad_to (longest + 1) (kv.1 +:+ ":") +:+ " " +:+ kv.2.

Definition kv_lines (kv_list : list (string * string)) : list string :=
  map (kv_line (longest_label kv_list)) kv_list.

(** The same line read from the left: the key, a colon, the padding
    up to the width [W] of the widest key, a space, the value. *)
Definition colon_line (W : nat) (kv : string * string) : string :=
  kv.1 +:+ ":" +:+ Py.spaces (W - String.length kv.1) +:+ " " +:+ kv.2.

(** A row for a key that is present, none for one that is absent. *)
Definition row (d : gmap string string) (key label : string) : list (string * string) :=
  match d !! key with
  | Some val => [(label, val)]
  | None => []
  end.

(** The value of a key, the empty string when it is absent. *)
Definition value_or_empty (d : gmap string string) (key : string) : string :=
  default "" (d !! key).

Definition fi_header : list string :=
  ["Financial Institution"; "====================="; ""].

Definition server_header : list string :=
  ["OFX Server"; "=========="; ""].

(** "{city}, {state} {postalcode}" *)
Definition city_line (c s p : string) : string :=
  c +:+ ", " +:+ s +:+ " " +:+ p.

(** The city line with each of the three values looked up on its
    own. *)
Definition city_line_independent (d : gmap string string) : string :=
  city_line (value_or_empty d "CITY") (value_or_empty d "STATE")
            (value_or_empty d "POSTALCODE").

(** The city line with the three values looked up in order, up to
    the first absent key. *)
Definition city_line_in_order (d : gmap string string) : string :=
  match d !! "CITY" with
  | None => city_line "" "" ""
  | Some c =>
      match d !! "STATE" with
      | None => city_line c "" ""
      | Some s => city_line c s (value_or_empty d "POSTALCODE")
      end
  end.

Definition named_rows (d : gmap string string) : list (string * string) :=
  row d "FINAME" "Name" ++ row d "ADDR1" "Address"
    ++ row d "ADDR2" "" ++ row d "ADDR3" "".

Definition fi_rows (d : gmap string string) : list (string * string) :=
  named_rows d ++ [("", city_line_in_order d); ("", value_or_empty d "COUNTRY")].

Definition server_rows (profrs : OFXFile) : list (string * string) :=
  row (signon profrs) "FID" "FID" ++ row (signon profrs) "ORG" "ORG"
    ++ row (profile profrs) "OFXURL" "URL".

End Render.

(** Appending [lines] to standard output. *)
Definition printed (lines : list string) (w : world) : world :=
  set_stdout (fun out => out ++ lines) w.

(** The institution block ends with the city line, rendered from the
    three values looked up independently, the country line and the
    closing blank line. *)
Definition renders_city_line_independently (profrs : OFXFile) : Prop :=
  forall w, exists before W,
    stdout (report_cli_fi profrs w).2
    = stdout w ++ before
        ++ [ Render.kv_line W ("", Render.city_line_independent (profile profrs));
             Render.kv_line W ("", Render.value_or_empty (profile profrs) "COUNTRY");
             "" ].

(** * Properties *)

(** ** Strings *)

Section StringFacts.

Lemma append_nil_r (s : string) : s +:+ "" = s.
Proof. induction s as [|c s IH]; simpl; [reflexivity | by rewrite IH]. Qed.

Lemma append_assoc (a b c : string) : (a +:+ b) +:+ c = a +:+ (b +:+ c).
Proof. induction a as [|x a IH]; simpl; [reflexivity | by rewrite IH]. Qed.

Lemma append_length (a b : string) :
  String.length (a +:+ b) = String.length a + String.length b.
Proof. induction a as [|x a IH]; simpl; [reflexivity | by rewrite IH]. Qed.

Lemma append_inv_l (p a b : string) : p +:+ a = p +:+ b -> a = b.
Proof. induction p as [|x p IH]; simpl; intros H; [exact H | injection H; auto]. Qed.

Lemma append_inv_same_length (a b x y : string) :
  String.length a = String.length b -> a +:+ x = b +:+ y -> a = b /\ x = y.
Proof.
  revert b. induction a as [|c a IH]; intros [|d b] Hlen H; simpl in *; try discriminate.
  - by split.
  - injection H as -> H. injection Hlen as Hlen.
    destruct (IH b Hlen H) as [-> ->]. by split.
Qed.

Lemma append_inv_r (a b s : string) : a +:+ s = b +:+ s -> a = b.
Proof.
  intros H. apply (append_inv_same_length a b s s); [|exact H].
  apply (f_equal String.length) in H. rewrite !append_length in H. lia.
Qed.

Lemma contains_append (c : ascii) (a b : string) :
  Py.contains c (a +:+ b) = Py.contains c a || Py.contains c b.
Proof.
  induction a as [|x a IH]; simpl; [reflexivity|].
  rewrite IH. by destruct (Ascii.eqb x c).
Qed.

(** The first separator splits a string uniquely when the parts
    before it do not contain it. *)
Lemma append_sep_inv (c : ascii) (a b x y : string) :
  Py.contains c a = false -> Py.contains c b = false ->
  a +:+ String c x = b +:+ String c y -> a = b /\ x = y.
Proof.
  revert b. induction a as [|d a IH]; intros [|e b] Ha Hb H; simpl in *.
  - injection H as ->. by split.
  - injection H as <- _. by rewrite Ascii.eqb_refl in Hb.
  - injection H as -> _. by rewrite Ascii.eqb_refl in Ha.
  - injection H as -> H.
    apply orb_false_iff in Ha as [_ Ha]. apply orb_false_iff in Hb as [_ Hb].
    destruct (IH b Ha Hb H) as [-> ->]. by split.
Qed.

Lemma contains_replace_slash (s : string) :
  Py.contains "/" (Py.replace "&" "+" (Py.replace "/" "_" s)) = false.
Proof.
  induction s as [|c s IH]; simpl; [reflexivity|].
  rewrite IH, orb_false_r.
  destruct (Ascii.eqb c "/") eqn:E1; [reflexivity|].
  destruct (Ascii.eqb c "&") eqn:E2; [reflexivity|exact E1].
Qed.

Lemma brace_free_append (a b : string) :
  brace_free (a +:+ b) = brace_free a && brace_free b.
Proof.
  unfold brace_free. rewrite !contains_append.
  destruct (Py.contains "{" a), (Py.contains "}" a),
           (Py.contains "{" b), (Py.contains "}" b); reflexivity.
Qed.

(** Text without braces is copied by [format]. *)
Lemma format_literal (p t : string) (args : list pyval) :
  brace_free p = true ->
  Py.format (p +:+ t) args = exc_map (String.append p) (Py.format t args).
Proof.
  induction p as [|c p IH]; intros Hp.
  - simpl. destruct (Py.format t args); reflexivity.
  - assert (Ascii.eqb c "{" = false /\ Ascii.eqb c "}" = false
            /\ brace_free p = true) as (E1 & E2 & Hp').
    { unfold brace_free in *. cbn [Py.contains] in Hp.
      destruct (Ascii.eqb c "{"), (Ascii.eqb c "}");
        cbn [orb negb andb] in Hp; rewrite ?andb_false_r in Hp;
        try discriminate Hp.
      repeat split; exact Hp. }
    change (String c p +:+ t) with (String c (p +:+ t)).
    cbn [Py.format]. rewrite E1, E2, IH by exact Hp'.
    destruct (Py.format t args); reflexivity.
Qed.

(** The code's transform is the specification's. *)
Lemma partition_tail (c : ascii) (s : string) :
  (Py.partition c s).2 = Spec.after_first c s.
Proof.
  induction s as [|d s IH]; simpl; [reflexivity|].
  destruct (Ascii.eqb d c); [reflexivity|].
  destruct (Py.partition c s) as [[h m] t]. exact IH.
Qed.

Lemma slice_from_1 (s : string) : Py.slice_from 1 s = Spec.strip_leading s.
Proof. destruct s; reflexivity. Qed.

Lemma replace_twice (s : string) :
  Py.replace "&" "+" (Py.replace "/" "_" s) = Spec.map_chars Spec.safe_char s.
Proof.
  induction s as [|c s IH]; simpl; [reflexivity|].
  rewrite IH. f_equal. unfold Spec.safe_char.
  destruct (Ascii.eqb c "/"); reflexivity.
Qed.

Lemma url_fname_transformed (url : string) : url_fname url = Spec.transformed url.
Proof. unfold url_fname. by rewrite partition_tail, slice_from_1, replace_twice. Qed.

Lemma replace_length (old new : ascii) (s : string) :
  String.length (Py.replace old new s) = String.length s.
Proof. induction s as [|c s IH]; simpl; [reflexivity | by rewrite IH]. Qed.

Lemma replace_removes (old new : ascii) (s : string) :
  Ascii.eqb new old = false -> Py.contains old (Py.replace old new s) = false.
Proof.
  intros Hne. induction s as [|c s IH]; simpl; [reflexivity|].
  rewrite IH, orb_false_r. by destruct (Ascii.eqb c old) eqn:E.
Qed.

Lemma replace_keeps_absent (old new c : ascii) (s : string) :
  Ascii.eqb new c = false -> Py.contains c s = false ->
  Py.contains c (Py.replace old new s) = false.
Proof.
  intros Hne. induction s as [|d s IH]; simpl; [reflexivity|].
  intros [Hd Hs]%orb_false_iff. rewrite IH, orb_false_r by exact Hs.
  by destruct (Ascii.eqb d old).
Qed.

Lemma rpartition_absent (c : ascii) (s : string) :
  Py.contains c s = false -> Py.rpartition c s = ("", "", s).
Proof.
  induction s as [|d s IH]; simpl; [reflexivity|].
  intros [Hd Hs]%orb_false_iff. by rewrite IH, Hd.
Qed.

(** The last separator splits a string where the part after it holds
    no separator. *)
Lemma rpartition_split (c : ascii) (a b : string) :
  Py.contains c b = false ->
  Py.rpartition c (a +:+ String c b) = (a, String c "", b).
Proof.
  intros Hb. induction a as [|d a IH]; simpl.
  - by rewrite rpartition_absent, Ascii.eqb_refl.
  - by rewrite IH.
Qed.

End StringFacts.

(** ** The cache directory *)

Section Identity.

Variable home : string.

Lemma DATA_DIR_value : DATA_DIR home = inr (home +:+ "/.ofxpostern").
Proof. reflexivity. Qed.

Lemma FIS_DIR_value : FIS_DIR home = inr (Spec.base_dir home).
Proof.
  unfold FIS_DIR. rewrite DATA_DIR_value. simpl.
  unfold Spec.base_dir. by rewrite append_assoc.
Qed.

Lemma FI_DIR_FMT_value : FI_DIR_FMT home = inr (Spec.base_dir home +:+ "/{}-{}-{}").
Proof. unfold FI_DIR_FMT. rewrite FIS_DIR_value. reflexivity. Qed.

Hypothesis home_brace_free : brace_free home = true.

Lemma format_FI_DIR (a b c : string) :
  Py.format (Spec.base_dir home +:+ "/{}-{}-{}") [VStr a; VStr b; VStr c]
  = inr (Spec.base_dir home +:+ "/" +:+ a +:+ "-" +:+ b +:+ "-" +:+ c).
Proof.
  rewrite format_literal.
  - simpl. by rewrite append_nil_r.
  - unfold Spec.base_dir. by rewrite brace_free_append, home_brace_free.
Qed.

Lemma init_run (server : OFXServerInstance) (w : world) :
  init home server w =
    (inr tt,
     let d := Spec.cache_dir home (ofxurl server) (fid server) (org server) in
     set_dirs (fun ds => {[ d ]} ∪ ({[ Spec.base_dir home ]}
                           ∪ ({[ home +:+ "/.ofxpostern" ]} ∪ ds)))
              (set_fi_dir d w)).
Proof.
  unfold init. rewrite url_fname_transformed, FI_DIR_FMT_value, FIS_DIR_value,
    DATA_DIR_value.
  unfold mbind, ES_bind, es_bind, eval. rewrite format_FI_DIR. reflexivity.
Qed.

Lemma derived_dir_value (server : OFXServerInstance) (w : world) :
  derived_dir home server w
  = Spec.cache_dir home (ofxurl server) (fid server) (org server).
Proof. unfold derived_dir. by rewrite init_run. Qed.

End Identity.

(** Concrete runs. *)

Example url_fname_example :
  url_fname "https://ofx.example.com/cgi/ofx?a=1&b=2" = "ofx.example.com_cgi_ofx?a=1+b=2".
Proof. reflexivity. Qed.

(** A URL without any '/' leaves nothing of itself in the name. *)
Example url_fname_no_slash : url_fname "localhost:8080" = "".
Proof. reflexivity. Qed.

(** A brace in the home directory reaches the second [format] of
    [FI_DIR_FMT] as part of the template. *)
Example init_home_with_brace :
  init "/srv/}" (identity "https://ofx.example.com/ofx" "1001" "ACME") empty_world
  = (inl (ValueError "Single '}' encountered in format string"), empty_world).
Proof. reflexivity. Qed.




(** C2, as stated, fails: the separator '-' may also occur inside
    [fid] and [org], so the pairs ("a-b", "c") and ("a", "b-c") under
    one URL are given the same cache key. *)
Lemma C2_injective_counterexample :
  ~ injective_in_fid_org "/home/alice" "https://ofx.example.com/ofx".
Proof.
  intros Hinj.
  apply (Hinj "a-b" "c" "a" "b-c" empty_world); [discriminate | reflexivity].
Qed.

(** C2, amended: the cache key is a function of (url, fid, org), the
    same on every call; under one URL two identities get different
    keys when they differ in [fid] only, when they differ in [org]
    only, and when they differ in any way while neither [fid] contains
    the separator '-'. *)
Theorem C2_cache_key_deterministic_separating (home url : string) :
  brace_free home = true ->
  (forall fid org w1 w2,
     derived_dir home (identity url fid org) w1
     = derived_dir home (identity url fid org) w2)
  /\ (forall fid1 fid2 org w,
        fid1 <> fid2 ->
        derived_dir home (identity url fid1 org) w
        <> derived_dir home (identity url fid2 org) w)
  /\ (forall fid org1 org2 w,
        org1 <> org2 ->
        derived_dir home (identity url fid org1) w
        <> derived_dir home (identity url fid org2) w)
  /\ (forall fid1 org1 fid2 org2 w,
        Py.contains "-" fid1 = false -> Py.contains "-" fid2 = false ->
        (fid1, org1) <> (fid2, org2) ->
        derived_dir home (identity url fid1 org1) w
        <> derived_dir home (identity url fid2 org2) w).
Proof.
  intros Hhome.
  assert (Hkey : forall fid1 org1 fid2 org2 w,
             derived_dir home (identity url fid1 org1) w
             = derived_dir home (identity url fid2 org2) w ->
             fid1 +:+ "-" +:+ org1 = fid2 +:+ "-" +:+ org2).
  { intros fid1 org1 fid2 org2 w. rewrite !derived_dir_value by exact Hhome.
    unfold Spec.cache_dir, Spec.segment.
    intros H. do 4 apply append_inv_l in H. exact H. }
  repeat split.
  - intros fid org w1 w2. by rewrite !derived_dir_value.
  - intros fid1 fid2 org w Hne Heq. apply Hne.
    apply Hkey in Heq. by apply append_inv_r in Heq.
  - intros fid org1 org2 w Hne Heq. apply Hne.
    apply Hkey in Heq. by do 2 apply append_inv_l in Heq.
  - intros fid1 org1 fid2 org2 w H1 H2 Hne Heq. apply Hne.
    apply Hkey in Heq.
    destruct (append_sep_inv "-" fid1 fid2 org1 org2 H1 H2 Heq) as [-> ->].
    reflexivity.
Qed.

Lemma C2_cache_key_deterministic_separating_witness :
  let url := "https://ofx.example.com/ofx" in
  brace_free "/home/alice" = true
  /\ derived_dir "/home/alice" (identity url "1001" "ACME") empty_world
     <> derived_dir "/home/alice" (identity url "1002" "ACME") empty_world
  /\ derived_dir "/home/alice" (identity url "1001" "ACME") empty_world
     <> derived_dir "/home/alice" (identity url "1001" "ACME-EU") empty_world
  /\ derived_dir "/home/alice" (identity url "1001" "A-C") empty_world
     <> derived_dir "/home/alice" (identity url "1002" "A-D") empty_world.
Proof.
  intros url.
  destruct (C2_cache_key_deterministic_separating "/home/alice" url eq_refl)
    as (_ & Hfid & Horg & Hboth).
  split; [reflexivity|]. split; [|split].
  - apply Hfid. discriminate.
  - apply Horg. discriminate.
  - apply Hboth; [reflexivity | reflexivity | discriminate].
Defined.

(** C3, as stated, fails: [fid] and [org] are interpolated verbatim, so
    a '/' in either of them is a '/' in the segment, also for a URL
    that has a '/' after its scheme. *)
Lemma C3_segment_slash_counterexample :
  slash_after_scheme "https://ofx.example.com/ofx"
  /\ ~ segment_slash_free "/home/alice"
         (identity "https://ofx.example.com/ofx" "10/01" "ACME").
Proof.
  split.
  - by exists "https", "ofx.example.com", "ofx".
  - intros Hfree.
    specialize (Hfree empty_world "ofx.example.com_ofx-10/01-ACME" eq_refl).
    discriminate Hfree.
Qed.

(** C3, amended: for every URL, with or without a '/' after the scheme,
    the URL part of the segment holds no '/'; [fid] and [org] are
    interpolated verbatim, so the segment "<url part>-<fid>-<org>" holds
    no '/' exactly when neither [fid] nor [org] holds one. *)
Theorem C3_segment_slash_free (home url fid org : string) (w : world) :
  brace_free home = true ->
  is_segment home (identity url fid org) w (url_fname url +:+ "-" +:+ fid +:+ "-" +:+ org)
  /\ Py.contains "/" (url_fname url) = false
  /\ forall seg,
       is_segment home (identity url fid org) w seg ->
       (Py.contains "/" seg = false
        <-> Py.contains "/" fid = false /\ Py.contains "/" org = false).
Proof.
  intros Hhome.
  assert (Hseg : is_segment home (identity url fid org) w
                   (url_fname url +:+ "-" +:+ fid +:+ "-" +:+ org)).
  { unfold is_segment. rewrite derived_dir_value by exact Hhome.
    unfold Spec.cache_dir, Spec.segment. simpl. by rewrite url_fname_transformed. }
  assert (Hurl : Py.contains "/" (url_fname url) = false)
    by apply contains_replace_slash.
  split; [exact Hseg|]. split; [exact Hurl|].
  intros seg Hseg'. unfold is_segment in *. rewrite Hseg in Hseg'.
  do 2 apply append_inv_l in Hseg'. subst seg.
  rewrite !contains_append, Hurl. simpl.
  rewrite orb_false_iff. reflexivity.
Qed.

Lemma C3_segment_slash_free_witness :
  brace_free "/home/alice" = true
  /\ Py.contains "/" (url_fname "https://ofx.example.com/cgi/ofx") = false
  /\ (Py.contains "/" "ofx.example.com_cgi_ofx-1001-ACME" = false
      <-> Py.contains "/" "1001" = false /\ Py.contains "/" "ACME" = false).
Proof.
  destruct (C3_segment_slash_free "/home/alice" "https://ofx.example.com/cgi/ofx"
              "1001" "ACME" empty_world eq_refl) as (Hseg & Hurl & Hiff).
  split; [reflexivity|]. split; [exact Hurl|].
  apply Hiff. reflexivity.
Defined.

(** ** Printing *)

Section Printing.

Lemma printed_nil (w : world) : printed [] w = w.
Proof. destruct w. unfold printed, set_stdout. simpl. by rewrite app_nil_r. Qed.

Lemma printed_printed (l1 l2 : list string) (w : world) :
  printed l2 (printed l1 w) = printed (l1 ++ l2) w.
Proof. destruct w. unfold printed, set_stdout. simpl. by rewrite app_assoc. Qed.

Lemma print_run (line : string) (w : world) : print line w = (inr tt, printed [line] w).
Proof. reflexivity. Qed.

Lemma length_spaces (n : nat) : String.length (Py.spaces n) = n.
Proof. induction n as [|n IH]; simpl; [reflexivity | by rewrite IH]. Qed.

Lemma k_width_from (l : list (string * string)) (a : nat) :
  fold_left (fun k_width kv =>
               if k_width <? String.length kv.1 then String.length kv.1
               else k_width) l a
  = Nat.max a (Render.longest_label l).
Proof.
  revert a. induction l as [|kv l IH]; intros a.
  - unfold Render.longest_label. simpl. lia.
  - cbn [fold_left]. rewrite IH. unfold Render.longest_label. simpl.
    destruct (Nat.ltb_spec a (String.length kv.1)); lia.
Qed.

Lemma k_width_longest (l : list (string * string)) :
  k_width l = Render.longest_label l.
Proof. unfold k_width. rewrite k_width_from. lia. Qed.

Lemma format_kv (W : nat) (kv : string * string) :
  Py.format "{:{}} {}" [VStr (kv.1 +:+ ":"); VInt (Z.of_nat W + 1); VStr kv.2]
  = inr (Render.kv_line W kv).
Proof.
  simpl. unfold Py.format_width.
  destruct (Z.leb_spec 1 (Z.of_nat W + 1)) as [_|Hlt]; [|lia].
  simpl. replace (Z.to_nat (Z.of_nat W + 1)) with (W + 1) by lia.
  unfold Render.kv_line, Render.pad_to.
  by rewrite append_nil_r, !append_assoc.
Qed.

Lemma for_each_print (W : nat) (l : list (string * string)) (w : world) :
  for_each l (fun kv =>
    line ← eval (Py.format "{:{}} {}"
                   [VStr (kv.1 +:+ ":"); VInt (Z.of_nat W + 1); VStr kv.2]);
    print line) w
  = (inr tt, printed (map (Render.kv_line W) l) w).
Proof.
  revert w. induction l as [|kv l IH]; intros w.
  - simpl. by rewrite printed_nil.
  - cbn [for_each map]. unfold mbind at 1, ES_bind, es_bind.
    unfold mbind at 1, ES_bind, es_bind, eval. rewrite format_kv, print_run, IH.
    by rewrite printed_printed.
Qed.

Lemma print_kv_list_run (l : list (string * string)) (w : world) :
  print_kv_list l w = (inr tt, printed (Render.kv_lines l) w).
Proof.
  unfold print_kv_list, Render.kv_lines. rewrite for_each_print.
  by rewrite k_width_longest.
Qed.

End Printing.

(** ** Running statements one at a time *)

Section Steps.

Context {S : Type}.

Lemma bind_run {A B} (m : ES S A) (k : A -> ES S B) (s s' : S) (a : A) :
  m s = (inr a, s') -> (m ≫= k) s = k a s'.
Proof. intros H. unfold mbind, ES_bind, es_bind. by rewrite H. Qed.

Lemma bind_raise {A B} (m : ES S A) (k : A -> ES S B) (s s' : S) (e : exn) :
  m s = (inl e, s') -> (m ≫= k) s = (inl e, s').
Proof. intros H. unfold mbind, ES_bind, es_bind. by rewrite H. Qed.

Lemma eval_run {A} (r : Exc A) (a : A) (s : S) :
  r = inr a -> eval r s = (inr a, s).
Proof. by intros ->. Qed.

Lemma gets_run {A} (f : S -> A) (s : S) : gets f s = (inr (f s), s).
Proof. reflexivity. Qed.

Lemma modify_run (f : S -> S) (s : S) : modify f s = (inr tt, f s).
Proof. reflexivity. Qed.

End Steps.

Section LocalSteps.

Context {L : Type}.

Lemma io_run {A} (m : M A) (w w' : world) (l : L) (r : Exc A) :
  m w = (r, w') -> io m (w, l) = (r, (w', l)).
Proof. intros H. unfold io. by rewrite H. Qed.

Lemma assign_run (f : L -> L) (w : world) (l : L) :
  assign f (w, l) = (inr tt, (w, f l)).
Proof. reflexivity. Qed.

Lemma local_run {A} (f : L -> A) (w : world) (l : L) :
  local f (w, l) = (inr (f l), (w, l)).
Proof. reflexivity. Qed.

(** [try: val = d[k]; <assign> except KeyError: pass] *)
Lemma try_getitem_assign (d : gmap string string) (k : string)
    (f : string -> L -> L) (w : world) (l : L) :
  try_except_KeyError (val ← getitem d k; assign (f val)) (w, l)
  = (inr tt, (w, match d !! k with Some v => f v l | None => l end)).
Proof.
  unfold try_except_KeyError, mbind, ES_bind, es_bind, getitem, eval.
  by destruct (d !! k).
Qed.

End LocalSteps.

(** Run the first statement of a sequence by the lemma [H] about it. *)
Ltac step H :=
  erewrite bind_run;
  [| first [ apply H | eapply io_run; apply H | apply eval_run; apply H ] ];
  cbv beta.

(** ** The report *)

Section Report.

Lemma print_header_2 (msg : string) (w : world) :
  print_header msg 2 w
  = (inr tt, printed [msg; Py.repeat_char "=" (String.length msg)] w).
Proof.
  unfold print_header. simpl.
  unfold mbind, ES_bind, es_bind, mret, ES_ret, es_ret.
  rewrite !print_run. by rewrite printed_printed.
Qed.

Lemma format_city (c s p : string) :
  Py.format "{}, {} {}" [VStr c; VStr s; VStr p] = inr (Render.city_line c s p).
Proof. simpl. unfold Render.city_line. by rewrite append_nil_r. Qed.

Lemma report_cli_server_run (profrs : OFXFile) (w : world) :
  report_cli_server profrs w
  = (inr tt,
     printed (Render.server_header
              ++ Render.kv_lines (Render.server_rows profrs) ++ [""]) w).
Proof.
  unfold report_cli_server, with_locals.
  step print_header_2. step print_run. step @assign_run.
  do 3 step @try_getitem_assign.
  step @local_run.
  step print_kv_list_run.
  erewrite io_run by apply print_run.
  rewrite !printed_printed.
  unfold Render.server_rows, Render.row.
  by destruct (signon profrs !! "FID"), (signon profrs !! "ORG"),
    (profile profrs !! "OFXURL").
Qed.

Lemma try_row (d : gmap string string) (k label : string) (w : world)
    (l : fi_locals) :
  try_except_KeyError (
      val ← getitem d k;
      assign (set_fi_list (fun x => x ++ [(label, val)]))) (w, l)
  = (inr tt, (w, set_fi_list (fun x => x ++ Render.row d k label) l)).
Proof.
  rewrite (try_getitem_assign d k
             (fun val => set_fi_list (fun x => x ++ [(label, val)]))).
  unfold Render.row. destruct (d !! k); [reflexivity|].
  destruct l. unfold set_fi_list. simpl. by rewrite app_nil_r.
Qed.

(** The three lookups of the city line share one [try]: the first
    absent key ends the block, and what was assigned before stays. *)
Lemma try_city (d : gmap string string) (w : world) (l : fi_locals) :
  try_except_KeyError (
      v ← getitem d "CITY";
      assign (set_city v) ;;
      v ← getitem d "STATE";
      assign (set_state v) ;;
      v ← getitem d "POSTALCODE";
      assign (set_postalcode v)) (w, l)
  = (inr tt,
     (w,
      let c := match d !! "CITY" with Some c => c | None => city l end in
      let s := match d !! "CITY", d !! "STATE" with
               | Some _, Some s => s
               | _, _ => state l
               end in
      let p := match d !! "CITY", d !! "STATE", d !! "POSTALCODE" with
               | Some _, Some _, Some p => p
               | _, _, _ => postalcode l
               end in
      set_postalcode p (set_state s (set_city c l)))).
Proof.
  unfold try_except_KeyError, mbind, ES_bind, es_bind, getitem, eval, assign, modify.
  destruct l.
  by destruct (d !! "CITY"), (d !! "STATE"), (d !! "POSTALCODE").
Qed.

Lemma try_country (d : gmap string string) (w : world) (l : fi_locals) :
  try_except_KeyError (
      v ← getitem d "COUNTRY";
      assign (set_country v)) (w, l)
  = (inr tt, (w, set_country (default (country l) (d !! "COUNTRY")) l)).
Proof.
  rewrite (try_getitem_assign d "COUNTRY" set_country).
  destruct (d !! "COUNTRY"); [reflexivity|]. by destruct l.
Qed.

Lemma report_cli_fi_run (profrs : OFXFile) (w : world) :
  report_cli_fi profrs w
  = (inr tt,
     printed (Render.fi_header
              ++ Render.kv_lines (Render.fi_rows (profile profrs)) ++ [""]) w).
Proof.
  unfold report_cli_fi, with_locals.
  set (d := profile profrs).
  step print_header_2. step print_run. step @assign_run.
  cbn [for_each fst snd].
  erewrite (bind_run (_ ;; _)).
  2:{ do 4 step try_row. reflexivity. }
  cbv beta.
  do 3 step @assign_run.
  step try_city.
  do 3 step @local_run.
  step format_city.
  do 2 step @assign_run.
  step try_country.
  step @local_run. step @assign_run. step @local_run.
  step print_kv_list_run.
  erewrite io_run by apply print_run.
  rewrite !printed_printed.
  cbn [fi_list set_fi_list set_city set_state set_postalcode set_country city
         state postalcode country fi_unbound app].
  unfold Render.fi_rows, Render.named_rows, Render.city_line_in_order,
    Render.value_or_empty.
  rewrite <- !app_assoc.
  by destruct (d !! "CITY"), (d !! "STATE"), (d !! "POSTALCODE"), (d !! "COUNTRY").
Qed.

Lemma report_cli_fi_lines (profrs : OFXFile) (w : world) :
  let d := profile profrs in
  let W := Render.longest_label (Render.fi_rows d) in
  report_cli_fi profrs w =
    (inr tt,
     printed (Render.fi_header
              ++ map (Render.kv_line W) (Render.named_rows d)
              ++ [ Render.kv_line W ("", Render.city_line_in_order d);
                   Render.kv_line W ("", Render.value_or_empty d "COUNTRY");
                   "" ]) w).
Proof.
  intros d W. rewrite report_cli_fi_run. fold d. unfold Render.kv_lines.
  fold W. unfold Render.fi_rows. rewrite map_app. cbn [map].
  by rewrite <- !app_assoc.
Qed.

End Report.

Section Lines.

Lemma kv_line_empty_key (W : nat) (v : string) :
  Render.kv_line W ("", v) = ":" +:+ Py.spaces W +:+ " " +:+ v.
Proof.
  unfold Render.kv_line, Render.pad_to. simpl.
  replace (W + 1 - 1) with W by lia. reflexivity.
Qed.

Lemma kv_line_starts (W : nat) (kv : string * string) :
  Render.kv_line W kv = Render.colon_line W kv.
Proof.
  unfold Render.kv_line, Render.pad_to, Render.colon_line.
  rewrite append_length. simpl.
  replace (W + 1 - (String.length kv.1 + 1)) with (W - String.length kv.1) by lia.
  by rewrite !append_assoc.
Qed.

Lemma kv_line_length (W : nat) (kv : string * string) :
  String.length (Render.kv_line W kv)
  = Nat.max W (String.length kv.1) + 2 + String.length kv.2.
Proof.
  rewrite kv_line_starts. unfold Render.colon_line.
  rewrite !append_length, length_spaces. simpl. lia.
Qed.

Lemma longest_label_bound (l : list (string * string)) :
  Forall (fun kv => String.length kv.1 <= Render.longest_label l) l.
Proof.
  induction l as [|kv l IH]; constructor.
  - unfold Render.longest_label. simpl. lia.
  - eapply Forall_impl; [exact IH|]. intros x Hx.
    unfold Render.longest_label in *. simpl. lia.
Qed.

Lemma longest_label_attained (l : list (string * string)) :
  l <> [] -> exists kv, kv ∈ l /\ String.length kv.1 = Render.longest_label l.
Proof.
  induction l as [|kv l IH]; [done|]. intros _.
  destruct l as [|kv' l'].
  - exists kv. split; [by left|]. unfold Render.longest_label. simpl. lia.
  - destruct IH as (x & Hin & Hx); [done|].
    destruct (Nat.le_ge_cases (Render.longest_label (kv' :: l')) (String.length kv.1)).
    + exists kv. split; [by left|].
      unfold Render.longest_label in *. simpl in *. lia.
    + exists x. split; [by right|].
      unfold Render.longest_label in *. simpl in *. lia.
Qed.

End Lines.

(** The institution block for a profile that holds FINAME only. *)
Example report_cli_fi_name_only :
  stdout (report_cli_fi {| signon := ∅; profile := {[ "FINAME" := "Acme Bank" ]} |}
            empty_world).2
  = ["Financial Institution"; "====================="; "";
     "Name: Acme Bank";
     ":     ,  ";
     ":     ";
     ""].
Proof. reflexivity. Qed.

(** [print_header] accepts the levels 1, 2 and 3 only. *)
Example print_header_unknown_level :
  print_header "Report" 4 empty_world = (inl (ValueError "Unknown lvl: 4"), empty_world).
Proof. reflexivity. Qed.

(** STATE and POSTALCODE are not substituted independently: with
    STATE and POSTALCODE present and CITY absent the city line is not
    the one rendered from the three values looked up each on its
    own. *)
Lemma C4_independent_counterexample :
  ~ renders_city_line_independently
      {| signon := ∅;
         profile := {[ "STATE" := "NY"; "POSTALCODE" := "10001" ]} |}.
Proof.
  intros Hind. destruct (Hind empty_world) as (before & W & Hout).
  match type of Hout with
  | ?lhs = _ =>
      let out := eval vm_compute in lhs in
      change lhs with out in Hout
  end.
  cbn [stdout empty_world app profile] in Hout.
  apply (f_equal (@rev string)) in Hout.
  rewrite rev_app_distr in Hout. cbn [rev app] in Hout.
  injection Hout as _ Hcity _.
  apply (f_equal String.length) in Hcity.
  rewrite append_length, length_spaces in Hcity.
  change (String.length (String " " (Render.city_line_independent _)))
    with 11 in Hcity.
  change (String.length " ,  ") with 4 in Hcity. lia.
Qed.

(** C4: a profile with STATE "NY" and POSTALCODE "10001" but no CITY.
    Each value substituted on its own gives the city line
    ", NY 10001"; the code prints ",  ", all three values empty,
    because the one [try] block around the three lookups is left at
    the first absent key, where every other lookup of the report has
    a [try] block of its own.  The line and the COUNTRY line are
    printed all the same. *)
Lemma C4_city_absent_drops_state :
  let profrs := {| signon := ∅;
                   profile := {[ "STATE" := "NY"; "POSTALCODE" := "10001" ]} |} in
  Render.city_line_independent (profile profrs) = ", NY 10001"
  /\ stdout (report_cli_fi profrs empty_world).2
     = ["Financial Institution"; "====================="; "";
        ": ,  ";
        ": ";
        ""]
  /\ ~ renders_city_line_independently profrs.
Proof.
  intros profrs. split; [reflexivity|]. split; [reflexivity|].
  exact C4_independent_counterexample.
Qed.

(** The closing lines of the institution block as the code prints
    them: after the rows for the keys that are present, one line in
    the format "{city}, {state} {postalcode}" and one line for COUNTRY
    (the empty string when absent), both under the empty label and
    both printed also when every underlying value is absent.  In the
    first line the values are those the shared [try] block assigned:
    CITY, STATE and POSTALCODE in this order, up to the first absent
    key. *)
Theorem C4_city_and_country_lines (profrs : OFXFile) (w : world) :
  let d := profile profrs in
  let W := Render.longest_label (Render.fi_rows d) in
  report_cli_fi profrs w =
    (inr tt,
     printed (Render.fi_header
              ++ map (Render.kv_line W) (Render.named_rows d)
              ++ [ Render.kv_line W ("", Render.city_line_in_order d);
                   Render.kv_line W ("", Render.value_or_empty d "COUNTRY");
                   "" ]) w)
  /\ Render.city_line_in_order d =
       match d !! "CITY", d !! "STATE", d !! "POSTALCODE" with
       | None, _, _ => ",  "
       | Some c, None, _ => c +:+ ",  "
       | Some c, Some s, None => c +:+ ", " +:+ s +:+ " "
       | Some c, Some s, Some p => c +:+ ", " +:+ s +:+ " " +:+ p
       end.
Proof.
  intros d W. split.
  - apply report_cli_fi_lines.
  - unfold Render.city_line_in_order, Render.city_line, Render.value_or_empty.
    destruct (d !! "CITY"), (d !! "STATE"), (d !! "POSTALCODE"); simpl;
      by rewrite ?append_nil_r.
Qed.

(** C5: for every profile response the server block prints its header
    and then attempts signon FID as "FID", signon ORG as "ORG" and
    profile OFXURL as "URL", in this order, with no line for an absent
    key.  With FID "1001", OFXURL "https://ofx.example.com" and no ORG
    it prints the two lines "FID: 1001" and "URL: https://ofx.example.com";
    with all three absent it still prints the header. *)
Theorem C5_server_block (profrs : OFXFile) (w : world) :
  report_cli_server profrs w =
    (inr tt,
     printed (["OFX Server"; "=========="; ""]
              ++ Render.kv_lines
                   (Render.row (signon profrs) "FID" "FID"
                    ++ Render.row (signon profrs) "ORG" "ORG"
                    ++ Render.row (profile profrs) "OFXURL" "URL")
              ++ [""]) w)
  /\ report_cli_server
       {| signon := {[ "FID" := "1001" ]};
          profile := {[ "OFXURL" := "https://ofx.example.com" ]} |} w
     = (inr tt,
        printed ["OFX Server"; "=========="; "";
                 "FID: 1001";
                 "URL: https://ofx.example.com";
                 ""] w)
  /\ report_cli_server {| signon := ∅; profile := ∅ |} w
     = (inr tt, printed ["OFX Server"; "=========="; ""; ""] w).
Proof.
  split; [|split]; by rewrite report_cli_server_run.
Qed.

(** C6: for every non-empty list of key/value pairs, the lines printed
    are, in the order of the list, one per pair: the label with its
    colon, right-padded to the width of the longest label of the list
    plus one, then a single space, then the value.  The width is the
    length of a longest label, and every padded label has exactly that
    width plus one. *)
Theorem C6_print_kv_list_format (kv_list : list (string * string)) (w : world) :
  kv_list <> [] ->
  let longest := Render.longest_label kv_list in
  print_kv_list kv_list w =
    (inr tt,
     printed (map (fun kv => Render.pad_to (longest + 1) (kv.1 +:+ ":")
                               +:+ " " +:+ kv.2) kv_list) w)
  /\ Forall (fun kv => String.length kv.1 <= longest) kv_list
  /\ (exists kv, kv ∈ kv_list /\ String.length kv.1 = longest)
  /\ Forall (fun kv => String.length (Render.pad_to (longest + 1) (kv.1 +:+ ":"))
                       = longest + 1) kv_list.
Proof.
  intros Hne longest. repeat split.
  - by rewrite print_kv_list_run.
  - apply longest_label_bound.
  - by apply longest_label_attained.
  - eapply Forall_impl; [apply longest_label_bound|].
    intros kv Hkv. cbv beta in Hkv. subst longest. unfold Render.pad_to.
    rewrite !append_length, length_spaces.
    change (String.length ":") with 1. lia.
Qed.

Lemma C6_print_kv_list_format_witness :
  [("Name", "Acme Bank"); ("Address", "1 Main St"); ("", "Springfield, IL 62701")]
    <> ([] : list (string * string))
  /\ print_kv_list
       [("Name", "Acme Bank"); ("Address", "1 Main St"); ("", "Springfield, IL 62701")]
       empty_world
     = (inr tt,
        printed ["Name:    Acme Bank";
                 "Address: 1 Main St";
                 ":        Springfield, IL 62701"] empty_world).
Proof.
  split; [discriminate|].
  destruct (C6_print_kv_list_format
              [("Name", "Acme Bank"); ("Address", "1 Main St");
               ("", "Springfield, IL 62701")] empty_world) as (Hrun & _);
    [discriminate|].
  rewrite Hrun. reflexivity.
Defined.

(** C8: for every profile response, whatever keys its two mappings
    hold, printing the full report returns normally: no lookup of an
    absent key, and nothing else, raises. *)
Theorem C8_report_cli_no_exception (profrs : OFXFile) (w : world) :
  (report_cli profrs w).1 = inr tt.
Proof.
  unfold report_cli, M.
  erewrite bind_run by apply report_cli_fi_run.
  by rewrite report_cli_server_run.
Qed.

(** C9: in the city line of the institution block the three lookups
    are coupled: the value of STATE is used only when CITY is present
    and the value of POSTALCODE only when CITY and STATE are both
    present; when CITY is absent the line is printed with all three
    values empty, also when STATE and POSTALCODE are present. *)
Theorem C9_city_state_postalcode_coupled (profrs : OFXFile) (w : world) :
  let d := profile profrs in
  let c := Render.value_or_empty d "CITY" in
  let s := match d !! "CITY" with
           | Some _ => Render.value_or_empty d "STATE"
           | None => ""
           end in
  let p := match d !! "CITY", d !! "STATE" with
           | Some _, Some _ => Render.value_or_empty d "POSTALCODE"
           | _, _ => ""
           end in
  (exists before W,
     stdout (report_cli_fi profrs w).2
     = stdout w ++ before
         ++ [ Render.kv_line W ("", c +:+ ", " +:+ s +:+ " " +:+ p);
              Render.kv_line W ("", Render.value_or_empty d "COUNTRY");
              "" ])
  /\ stdout (report_cli_fi
               {| signon := ∅;
                  profile := {[ "STATE" := "NY"; "POSTALCODE" := "10001" ]} |}
               empty_world).2
     = ["Financial Institution"; "====================="; "";
        ": ,  ";
        ": ";
        ""].
Proof.
  intros d c s p. split; [|reflexivity].
  pose proof (report_cli_fi_lines profrs w) as Hrun. cbv zeta in Hrun.
  exists (Render.fi_header
            ++ map (Render.kv_line (Render.longest_label (Render.fi_rows d)))
                 (Render.named_rows d)),
    (Render.longest_label (Render.fi_rows d)).
  rewrite Hrun. fold d. unfold printed, set_stdout. cbn [snd stdout].
  rewrite <- !app_assoc. do 4 f_equal.
  unfold Render.city_line_in_order, Render.city_line, c, s, p, Render.value_or_empty.
  by destruct (d !! "CITY"), (d !! "STATE"), (d !! "POSTALCODE").
Qed.

(** C10: every key/value line starts with the key followed by ':', and
    the padding comes after the colon; so a pair with the empty key is
    printed as a line that starts with a lone ':'.  The two closing
    lines of the institution block, whose key is empty, are such
    lines. *)
Theorem C10_colon_before_padding (kv_list : list (string * string))
    (profrs : OFXFile) (w : world) :
  let W := k_width kv_list in
  print_kv_list kv_list w =
    (inr tt, printed (map (Render.colon_line W) kv_list) w)
  /\ (forall v, Render.colon_line W ("", v) = String ":" (Py.spaces W +:+ " " +:+ v))
  /\ exists before Wfi,
       stdout (report_cli_fi profrs w).2
       = stdout w ++ before
           ++ [ String ":" (Py.spaces Wfi +:+ " "
                            +:+ Render.city_line_in_order (profile profrs));
                String ":" (Py.spaces Wfi +:+ " "
                            +:+ Render.value_or_empty (profile profrs) "COUNTRY");
                "" ].
Proof.
  intros W.
  assert (Hempty : forall n v,
             Render.colon_line n ("", v) = String ":" (Py.spaces n +:+ " " +:+ v)).
  { intros n v. unfold Render.colon_line. simpl. by rewrite Nat.sub_0_r. }
  split; [|split].
  - rewrite print_kv_list_run. unfold Render.kv_lines, W.
    rewrite k_width_longest. f_equal. f_equal.
    apply map_ext. intros kv. apply kv_line_starts.
  - apply Hempty.
  - pose proof (report_cli_fi_lines profrs w) as Hrun. cbv zeta in Hrun.
    set (Wfi := Render.longest_label (Render.fi_rows (profile profrs))) in Hrun.
    exists (Render.fi_header
              ++ map (Render.kv_line Wfi) (Render.named_rows (profile profrs))), Wfi.
    rewrite Hrun. unfold printed, set_stdout. cbn [snd stdout].
    rewrite <- !Hempty, <- !kv_line_starts, <- !app_assoc. reflexivity.
Qed.

(** ** The session *)

Section Session.

Variable HOME : string.
Variable REQ_NAME_OFX_PROFILE : string.
Variable new_OFXServerInstance :
  string -> option string -> option string -> OFXServerInstance.
Variable OFXTestClient_send_req :
  bool -> string -> OFXServerInstance -> list string * Exc Response.
Variable new_OFXFile : string -> Exc OFXFile.
Variable time_asctime : nat -> string.
Variable json_dumps : gmap string string -> string.
Variable str_Namespace : Namespace -> string.

Lemma format_one (pre a : string) :
  brace_free pre = true ->
  Py.format (pre +:+ "{}") [VStr a] = inr (pre +:+ a).
Proof.
  intros Hpre. rewrite format_literal by exact Hpre. simpl.
  by rewrite append_nil_r.
Qed.

Lemma print_debug_run (msg : string) (w : world) :
  print_debug msg w = (inr tt, printed ["DEBUG: " +:+ msg] w).
Proof.
  unfold print_debug, debug, M.
  erewrite bind_run by (apply eval_run; apply (format_one "DEBUG: "); reflexivity).
  apply print_run.
Qed.

Lemma format_version (prog : string) :
  Py.format "{}: version {}" [VStr prog; VStr VERSION]
  = inr (prog +:+ ": version 0.0.1").
Proof. reflexivity. Qed.

Lemma asctime_run (w : world) :
  asctime time_asctime w = (inr (time_asctime (clock w)), set_clock S w).
Proof. reflexivity. Qed.

(** The request fails: nothing after the call is run. *)
Lemma send_profile_req_raises (server : OFXServerInstance) (w : world)
    (out : list string) (e : exn) :
  OFXTestClient_send_req debug REQ_NAME_OFX_PROFILE server = (out, inl e) ->
  send_profile_req REQ_NAME_OFX_PROFILE OFXTestClient_send_req json_dumps server w
  = (inl e,
     printed out (set_sent (fun l => l ++ [(REQ_NAME_OFX_PROFILE, server)]) w)).
Proof.
  intros Hsend. unfold send_profile_req, M.
  erewrite bind_raise; [reflexivity|]. cbv beta. by rewrite Hsend.
Qed.

(** A file directly inside an existing directory can be written. *)
Lemma write_file_run (d leaf content : string) (w : world) :
  Py.contains "/" leaf = false ->
  (d ∈ dirs w) ->
  write_file (d +:+ "/" +:+ leaf) content w
  = (inr tt, set_files (fun fs => <[ d +:+ "/" +:+ leaf := content ]> fs) w).
Proof.
  intros Hleaf Hd. unfold write_file.
  change ("/" +:+ leaf) with (String "/" leaf).
  rewrite rpartition_split by exact Hleaf. cbn [fst].
  by rewrite (bool_decide_eq_true_2 _ Hd), orb_true_r.
Qed.


Lemma artifact_leaf_flat (req_name suffix : string) :
  Py.contains "/" suffix = false ->
  Py.contains "/" (Py.replace " " "_" (Py.replace "/" "+" req_name) +:+ "-" +:+ suffix)
  = false.
Proof.
  intros Hsuffix. rewrite contains_append.
  rewrite replace_keeps_absent; [|reflexivity|by apply replace_removes].
  simpl. exact Hsuffix.
Qed.

(** The request succeeds: both artifacts are written under [fi_dir],
    which exists, and the response is registered. *)
Lemma send_profile_req_returns (server : OFXServerInstance) (w : world)
    (out : list string) (res : Response) :
  (fi_dir w ∈ dirs w) ->
  OFXTestClient_send_req debug REQ_NAME_OFX_PROFILE server = (out, inr res) ->
  let base := Py.replace " " "_" (Py.replace "/" "+" REQ_NAME_OFX_PROFILE) in
  send_profile_req REQ_NAME_OFX_PROFILE OFXTestClient_send_req json_dumps server w
  = (inr tt,
     set_req_results (fun rs => <[ REQ_NAME_OFX_PROFILE := res ]> rs)
       (set_files (fun fs =>
                     <[ fi_dir w +:+ "/" +:+ base +:+ "-body" := text res ]>
                       (<[ fi_dir w +:+ "/" +:+ base +:+ "-headers"
                           := json_dumps (headers res) ]> fs))
          (printed out
             (set_sent (fun l => l ++ [(REQ_NAME_OFX_PROFILE, server)]) w)))).
Proof.
  intros Hdir Hsend base. unfold send_profile_req, M.
  assert (Hfmt : forall suffix,
             Py.format "{}/{}-{}" [VStr (fi_dir w); VStr base; VStr suffix]
             = inr (fi_dir w +:+ "/" +:+ base +:+ "-" +:+ suffix)).
  { intros suffix. simpl. by rewrite append_nil_r. }
  erewrite bind_run; [|by rewrite Hsend]. cbv beta.
  step @gets_run. cbn [fi_dir printed set_stdout set_sent].
  step Hfmt.
  erewrite bind_run
    by (apply (write_file_run (fi_dir w) (base +:+ "-" +:+ STR_HEADERS));
        [by apply artifact_leaf_flat | exact Hdir]).
  cbv beta.
  step @gets_run. cbn [fi_dir set_files].
  step Hfmt.
  erewrite bind_run
    by (apply (write_file_run (fi_dir w) (base +:+ "-" +:+ STR_BODY));
        [by apply artifact_leaf_flat | exact Hdir]).
  cbv beta.
  destruct w. reflexivity.
Qed.

(** C7: when the protocol client raises on the profile request, the
    run ends with that error, uncaught.  No file has been written,
    the result registry is as before, the request was handed to the
    client once, and standard output holds the progress lines up to
    "Sending <PROFRQ>" and what the client itself printed: no line of
    the report.  The home directory is free of format braces, so the
    cache layout was established before the request. *)
Theorem C7_transport_error_aborts (args : Namespace) (w : world)
    (out : list string) (e : exn) :
  let server :=
    new_OFXServerInstance (args_url args) (args_fid args) (args_org args) in
  brace_free HOME = true ->
  OFXTestClient_send_req debug REQ_NAME_OFX_PROFILE server = (out, inl e) ->
  exists w',
    main HOME REQ_NAME_OFX_PROFILE new_OFXServerInstance OFXTestClient_send_req
         new_OFXFile time_asctime json_dumps str_Namespace args w
    = (inl e, w')
    /\ files w' = files w
    /\ req_results w' = req_results w
    /\ sent w' = sent w ++ [(REQ_NAME_OFX_PROFILE, server)]
    /\ stdout w' =
         stdout w
         ++ [ "DEBUG: " +:+ str_Namespace args;
              parser_prog args +:+ ": version 0.0.1";
              "";
              "Start: " +:+ time_asctime (clock w);
              "  Sending <PROFRQ>" ]
         ++ out.
Proof.
  intros server Hhome Hsend. unfold main, M.
  step print_debug_run.
  erewrite bind_run by (apply init_run; exact Hhome). cbv beta zeta.
  step format_version. step print_run. step print_run.
  step asctime_run.
  erewrite bind_run by (apply eval_run; apply (format_one "Start: "); reflexivity).
  cbv beta.
  step print_run. step print_run.
  erewrite bind_raise by (apply send_profile_req_raises; exact Hsend).
  eexists. split; [reflexivity|].
  cbn [files req_results sent stdout clock printed set_stdout set_sent
         set_clock set_dirs set_fi_dir].
  repeat split. by rewrite <- !app_assoc.
Qed.

End Session.

Lemma C7_transport_error_aborts_witness :
  let refuse := fun (_ : bool) (_ : string) (_ : OFXServerInstance) =>
                  (["connecting"], inl (TransportError "connection refused"))
                  : list string * Exc Response in
  let args := {| args_url := "https://ofx.example.com/ofx";
                 args_fid := Some "1001"; args_org := None;
                 parser_prog := "ofxpostern.py" |} in
  let run :=
    main "/home/alice" "OFX PROFILE"
         (fun url f o => identity url (default "" f) (default "" o))
         refuse (fun _ => inl (ParseError "no response"))
         (fun n => "t" +:+ pretty n) (fun _ => "{}") (fun _ => "Namespace()")
         args empty_world in
  brace_free "/home/alice" = true
  /\ run.1 = inl (TransportError "connection refused")
  /\ files run.2 = ∅
  /\ req_results run.2 = ∅
  /\ stdout run.2 =
       ["DEBUG: Namespace()"; "ofxpostern.py: version 0.0.1"; ""; "Start: t0";
        "  Sending <PROFRQ>"; "connecting"].
Proof.
  intros refuse args run.
  destruct (C7_transport_error_aborts "/home/alice" "OFX PROFILE"
              (fun url f o => identity url (default "" f) (default "" o))
              refuse (fun _ => inl (ParseError "no response"))
              (fun n => "t" +:+ pretty n) (fun _ => "{}") (fun _ => "Namespace()")
              args empty_world ["connecting"] (TransportError "connection refused")
              eq_refl eq_refl)
    as (w' & Hrun & Hfiles & Hreg & Hsent & Hout).
  fold run in Hrun. rewrite Hrun. cbn [fst snd].
  split; [reflexivity|]. split; [reflexivity|].
  split; [exact Hfiles|]. split; [exact Hreg|]. exact Hout.
Defined.

(** * Further properties of the program *)

(** ** Headers *)

Section Headers.

Lemma length_repeat_char (c : ascii) (n : nat) :
  String.length (Py.repeat_char c n) = n.
Proof. induction n as [|n IH]; simpl; [reflexivity | by rewrite IH]. Qed.

Lemma format_one_value (pre : string) (a : pyval) :
  brace_free pre = true ->
  Py.format (pre +:+ "{}") [a] = inr (pre +:+ py_str a).
Proof.
  intros Hpre. rewrite format_literal by exact Hpre. simpl.
  by rewrite append_nil_r.
Qed.

(** X1: for a level from 1 to 3, [print_header] returns normally
    having printed two lines: the message, and an underline as long
    as the message made of '#', '=' or '-' for level 1, 2 or 3. *)
Theorem X1_print_header_underline (msg : string) (lvl : Z) (w : world) :
  (1 <= lvl <= 3)%Z ->
  let under_char :=
    if (lvl =? 1)%Z then "#"%char else if (lvl =? 2)%Z then "="%char else "-"%char in
  print_header msg lvl w
  = (inr tt, printed [msg; Py.repeat_char under_char (String.length msg)] w)
  /\ String.length (Py.repeat_char under_char (String.length msg))
     = String.length msg.
Proof.
  intros Hlvl under_char. split; [|apply length_repeat_char].
  assert (lvl = 1 \/ lvl = 2 \/ lvl = 3)%Z as [-> | [-> | ->]] by lia;
    unfold print_header, under_char; simpl;
    unfold mbind, ES_bind, es_bind, mret, ES_ret, es_ret;
    rewrite !print_run; by rewrite printed_printed.
Qed.

Lemma X1_print_header_underline_witness :
  (1 <= 3 <= 3)%Z
  /\ print_header "Capabilities" 3 empty_world
     = (inr tt, printed ["Capabilities"; "------------"] empty_world).
Proof.
  assert (H : (1 <= 3 <= 3)%Z) by lia.
  split; [exact H|].
  destruct (X1_print_header_underline "Capabilities" 3 empty_world H) as [Hrun _].
  exact Hrun.
Defined.

(** X2: for any other level [print_header] raises
    [ValueError "Unknown lvl: <lvl>"] before it prints anything. *)
Theorem X2_print_header_unknown_level (msg : string) (lvl : Z) (w : world) :
  ~ (1 <= lvl <= 3)%Z ->
  print_header msg lvl w = (inl (ValueError ("Unknown lvl: " +:+ pretty lvl)), w).
Proof.
  intros Hlvl. unfold print_header.
  destruct (Z.eqb_spec lvl 1) as [->|_]; [lia|].
  destruct (Z.eqb_spec lvl 2) as [->|_]; [lia|].
  destruct (Z.eqb_spec lvl 3) as [->|_]; [lia|].
  unfold M. erewrite bind_raise; [reflexivity|].
  erewrite bind_run
    by (apply eval_run; apply (format_one_value "Unknown lvl: " (VInt lvl));
        reflexivity).
  reflexivity.
Qed.

Lemma X2_print_header_unknown_level_witness :
  ~ (1 <= 0 <= 3)%Z
  /\ print_header "Report" 0 empty_world
     = (inl (ValueError "Unknown lvl: 0"), empty_world).
Proof.
  assert (H : ~ (1 <= 0 <= 3)%Z) by lia.
  split; [exact H|].
  exact (X2_print_header_unknown_level "Report" 0 empty_world H).
Defined.

End Headers.

(** ** The URL as a file name *)

Section UrlName.

Lemma after_first_split (c : ascii) (head rest : string) :
  Py.contains c head = false ->
  Spec.after_first c (head +:+ String c rest) = rest.
Proof.
  induction head as [|d head IH]; simpl; intros Hhead.
  - by rewrite Ascii.eqb_refl.
  - apply orb_false_iff in Hhead as [Hd Hhead]. rewrite Hd. by apply IH.
Qed.

Lemma after_first_absent (c : ascii) (s : string) :
  Py.contains c s = false -> Spec.after_first c s = "".
Proof.
  induction s as [|d s IH]; simpl; intros Hs; [reflexivity|].
  apply orb_false_iff in Hs as [Hd Hs]. rewrite Hd. by apply IH.
Qed.

Lemma map_chars_length (f : ascii -> ascii) (s : string) :
  String.length (Spec.map_chars f s) = String.length s.
Proof. induction s as [|c s IH]; simpl; [reflexivity | by rewrite IH]. Qed.

Lemma map_chars_safe_free (s : string) :
  Py.contains "/" (Spec.map_chars Spec.safe_char s) = false
  /\ Py.contains "&" (Spec.map_chars Spec.safe_char s) = false.
Proof.
  induction s as [|c s [IH1 IH2]]; simpl; [by split|].
  rewrite IH1, IH2, !orb_false_r. unfold Spec.safe_char.
  destruct (Ascii.eqb c "/") eqn:E1; [by split|].
  destruct (Ascii.eqb c "&") eqn:E2; [by split|]. by split.
Qed.

Lemma derived_dir_identity (home url f o : string) (w : world) :
  brace_free home = true ->
  derived_dir home (identity url f o) w = Spec.cache_dir home url f o.
Proof. intros Hhome. by rewrite derived_dir_value. Qed.

(** X3: a URL in which no '/' occurs leaves nothing in the file name,
    so under one home directory all such URLs share, for each
    (fid, org), the one cache directory [<base>/-<fid>-<org>]. *)
Theorem X3_url_without_slash (home url fid org : string) (w : world) :
  brace_free home = true ->
  Py.contains "/" url = false ->
  url_fname url = ""
  /\ derived_dir home (identity url fid org) w
     = Spec.base_dir home +:+ "/-" +:+ fid +:+ "-" +:+ org.
Proof.
  intros Hhome Hurl.
  assert (Hname : url_fname url = "").
  { rewrite url_fname_transformed. unfold Spec.transformed.
    by rewrite after_first_absent. }
  split; [exact Hname|].
  rewrite derived_dir_value by exact Hhome.
  unfold Spec.cache_dir, Spec.segment. simpl.
  by rewrite <- url_fname_transformed, Hname.
Qed.

Lemma X3_url_without_slash_witness :
  brace_free "/home/alice" = true
  /\ Py.contains "/" "localhost:8080" = false
  /\ derived_dir "/home/alice" (identity "localhost:8080" "1001" "ACME") empty_world
     = "/home/alice/.ofxpostern/fi/-1001-ACME".
Proof.
  destruct (X3_url_without_slash "/home/alice" "localhost:8080" "1001" "ACME"
              empty_world eq_refl eq_refl) as [_ Hdir].
  split; [reflexivity|]. split; [reflexivity|]. exact Hdir.
Defined.

(** X4: the file name is cut out of the URL by position: what
    precedes the first '/', that '/' and the one character after it
    are dropped, whatever that character is; the rest is kept in
    length and in every character other than '/' and '&', which turn
    into '_' and '+'.  The name holds neither '/' nor '&'. *)
Theorem X4_url_fname_by_position (head tail : string) (c : ascii) :
  Py.contains "/" head = false ->
  url_fname (head +:+ "/" +:+ String c tail) = Spec.map_chars Spec.safe_char tail
  /\ String.length (url_fname (head +:+ "/" +:+ String c tail)) = String.length tail
  /\ Py.contains "/" (url_fname (head +:+ "/" +:+ String c tail)) = false
  /\ Py.contains "&" (url_fname (head +:+ "/" +:+ String c tail)) = false.
Proof.
  intros Hhead.
  assert (Hname : url_fname (head +:+ "/" +:+ String c tail)
                  = Spec.map_chars Spec.safe_char tail).
  { rewrite url_fname_transformed. unfold Spec.transformed.
    change ("/" +:+ String c tail) with (String "/" (String c tail)).
    by rewrite after_first_split. }
  rewrite Hname. split; [reflexivity|]. split; [apply map_chars_length|].
  apply map_chars_safe_free.
Qed.

Lemma X4_url_fname_by_position_witness :
  Py.contains "/" "ofx.example.com" = false
  /\ url_fname "ofx.example.com/cgi/ofx?a&b" = "gi_ofx?a+b".
Proof.
  split; [reflexivity|].
  destruct (X4_url_fname_by_position "ofx.example.com" "gi/ofx?a&b" "c" eq_refl)
    as [Hname _].
  exact Hname.
Defined.

(** X5: the scheme is not part of the cache key: two URLs that differ
    only in the scheme before "://" are given the same cache
    directory. *)
Theorem X5_scheme_not_in_cache_key (home scheme1 scheme2 rest fid org : string)
    (w1 w2 : world) :
  brace_free home = true ->
  Py.contains "/" scheme1 = false ->
  Py.contains "/" scheme2 = false ->
  derived_dir home (identity (scheme1 +:+ "://" +:+ rest) fid org) w1
  = derived_dir home (identity (scheme2 +:+ "://" +:+ rest) fid org) w2.
Proof.
  intros Hhome H1 H2.
  rewrite !(derived_dir_identity home) by exact Hhome.
  unfold Spec.cache_dir, Spec.segment, Spec.transformed.
  change ("://" +:+ rest) with (String ":" (String "/" (String "/" rest))).
  assert (Hsplit : forall scheme,
             Py.contains "/" scheme = false ->
             Spec.after_first "/" (scheme +:+ String ":" (String "/" (String "/" rest)))
             = String "/" rest).
  { intros scheme Hs.
    change (scheme +:+ String ":" (String "/" (String "/" rest)))
      with (scheme +:+ (":" +:+ String "/" (String "/" rest))).
    rewrite <- append_assoc. apply after_first_split.
    rewrite contains_append, Hs. reflexivity. }
  by rewrite !Hsplit.
Qed.

Lemma X5_scheme_not_in_cache_key_witness :
  brace_free "/home/alice" = true
  /\ Py.contains "/" "http" = false
  /\ Py.contains "/" "https" = false
  /\ derived_dir "/home/alice" (identity "http://ofx.example.com/ofx" "1001" "ACME")
       empty_world
     = derived_dir "/home/alice" (identity "https://ofx.example.com/ofx" "1001" "ACME")
         empty_world.
Proof.
  split; [reflexivity|]. split; [reflexivity|]. split; [reflexivity|].
  exact (X5_scheme_not_in_cache_key "/home/alice" "http" "https" "ofx.example.com/ofx"
           "1001" "ACME" empty_world empty_world eq_refl eq_refl eq_refl).
Defined.

End UrlName.

(** ** Widths *)

Section Widths.

Lemma longest_label_app (l1 l2 : list (string * string)) :
  Render.longest_label (l1 ++ l2)
  = Nat.max (Render.longest_label l1) (Render.longest_label l2).
Proof.
  unfold Render.longest_label.
  induction l1 as [|kv l1 IH]; simpl; [reflexivity|]. rewrite IH. lia.
Qed.

(** X8: two lists printed as one block are padded to the larger of
    their two widths, the rows of the first list first; the width
    depends on the keys only, not on the values. *)
Theorem X8_print_kv_list_append (l1 l2 : list (string * string)) (w : world) :
  let W := Nat.max (k_width l1) (k_width l2) in
  k_width (l1 ++ l2) = W
  /\ print_kv_list (l1 ++ l2) w
     = (inr tt, printed (map (Render.kv_line W) l1 ++ map (Render.kv_line W) l2) w)
  /\ forall f : string -> string,
       k_width (map (fun kv => (kv.1, f kv.2)) l1) = k_width l1.
Proof.
  intros W.
  assert (HW : k_width (l1 ++ l2) = W).
  { unfold W. rewrite !k_width_longest. apply longest_label_app. }
  split; [exact HW|]. split.
  - rewrite print_kv_list_run. unfold Render.kv_lines.
    by rewrite <- k_width_longest, HW, map_app.
  - intros f. rewrite !k_width_longest. unfold Render.longest_label.
    clear HW W. induction l1 as [|kv l1 IH]; simpl; [reflexivity|]. by rewrite IH.
Qed.

(** X9: the report is the institution block followed by the server
    block, each padded to its own width; printing it returns normally
    and changes nothing but standard output. *)
Theorem X9_report_cli_blocks (profrs : OFXFile) (w : world) :
  let fi_rows := Render.fi_rows (profile profrs) in
  let server_rows := Render.server_rows profrs in
  report_cli profrs w =
    (inr tt,
     printed (["Financial Institution"; "====================="; ""]
              ++ map (Render.kv_line (k_width fi_rows)) fi_rows
              ++ [""]
              ++ ["OFX Server"; "=========="; ""]
              ++ map (Render.kv_line (k_width server_rows)) server_rows
              ++ [""]) w)
  /\ let w' := (report_cli profrs w).2 in
     files w' = files w /\ dirs w' = dirs w /\ fi_dir w' = fi_dir w
     /\ req_results w' = req_results w /\ sent w' = sent w /\ clock w' = clock w.
Proof.
  intros fi_rows server_rows.
  assert (Hrun : report_cli profrs w =
    (inr tt,
     printed (["Financial Institution"; "====================="; ""]
              ++ map (Render.kv_line (k_width fi_rows)) fi_rows
              ++ [""]
              ++ ["OFX Server"; "=========="; ""]
              ++ map (Render.kv_line (k_width server_rows)) server_rows
              ++ [""]) w)).
  { unfold report_cli, M.
    erewrite bind_run by apply report_cli_fi_run.
    rewrite report_cli_server_run, printed_printed.
    unfold Render.kv_lines. rewrite !k_width_longest.
    unfold Render.fi_header, Render.server_header. fold fi_rows. fold server_rows.
    by rewrite <- !app_assoc. }
  split; [exact Hrun|]. rewrite Hrun. cbv zeta.
  cbn [snd files dirs fi_dir req_results sent clock printed set_stdout].
  repeat split.
Qed.

(** X10: the institution block is laid out by the keys that are
    present: its label field is 8 characters wide when ADDR1 is
    present, 5 when ADDR1 is absent and FINAME present, and 1, the
    colon alone, when both are absent. *)
Theorem X10_report_cli_fi_width (profrs : OFXFile) (w : world) :
  let d := profile profrs in
  let W := match d !! "ADDR1", d !! "FINAME" with
           | Some _, _ => 7
           | None, Some _ => 4
           | None, None => 0
           end in
  report_cli_fi profrs w =
    (inr tt,
     printed (["Financial Institution"; "====================="; ""]
              ++ map (fun kv => Render.pad_to (W + 1) (kv.1 +:+ ":") +:+ " " +:+ kv.2)
                     (Render.fi_rows d)
              ++ [""]) w).
Proof.
  intros d W. rewrite report_cli_fi_run. fold d. unfold Render.kv_lines.
  assert (HW : Render.longest_label (Render.fi_rows d) = W).
  { unfold W, Render.fi_rows, Render.named_rows, Render.row.
    rewrite !longest_label_app.
    by destruct (d !! "FINAME"), (d !! "ADDR1"), (d !! "ADDR2"), (d !! "ADDR3"). }
  by rewrite HW.
Qed.

(** X11: the server block has a label field of 4 characters when at
    least one of FID, ORG and OFXURL is present; when none is, it
    prints its header and the closing blank line only. *)
Theorem X11_report_cli_server_width (profrs : OFXFile) (w : world) :
  let rows := Render.server_rows profrs in
  report_cli_server profrs w =
    (inr tt,
     printed (["OFX Server"; "=========="; ""]
              ++ map (fun kv => Render.pad_to 4 (kv.1 +:+ ":") +:+ " " +:+ kv.2) rows
              ++ [""]) w)
  /\ (rows = [] <->
        signon profrs !! "FID" = None /\ signon profrs !! "ORG" = None
        /\ profile profrs !! "OFXURL" = None).
Proof.
  intros rows. split.
  - rewrite report_cli_server_run. fold rows. unfold Render.kv_lines.
    do 3 f_equal. unfold rows, Render.server_rows, Render.row.
    by destruct (signon profrs !! "FID"), (signon profrs !! "ORG"),
         (profile profrs !! "OFXURL").
  - unfold rows, Render.server_rows, Render.row.
    destruct (signon profrs !! "FID"), (signon profrs !! "ORG"),
      (profile profrs !! "OFXURL"); split; intros H;
      try discriminate H; try (destruct H as (? & ? & ?); discriminate); done.
Qed.

End Widths.

(** ** The request and the run *)

Section Runs.

#[local] Set Warnings "-clear-no-such-hyp".

Variable HOME : string.
Variable REQ_NAME_OFX_PROFILE : string.
Variable new_OFXServerInstance :
  string -> option string -> option string -> OFXServerInstance.
Variable new_OFXFile : string -> Exc OFXFile.
Variable time_asctime : nat -> string.
Variable json_dumps : gmap string string -> string.
Variable str_Namespace : Namespace -> string.

Lemma artifact_paths_differ (d base : string) :
  d +:+ "/" +:+ base +:+ "-headers" <> d +:+ "/" +:+ base +:+ "-body".
Proof. intros H. do 3 apply append_inv_l in H. discriminate H. Qed.

(** X12: when the client returns a response and the directory named
    by [fi_dir] exists (and neither artifact path names a directory),
    [send_profile_req] returns normally having written exactly two
    files under [fi_dir], "<name>-headers" with the serialised headers
    and "<name>-body" with the response text as received, and having
    registered the response under the request name; reading either
    back gives what was written, and no other file, registry entry or
    directory is touched. *)
Theorem X12_send_profile_req_persists
    (send_req : bool -> string -> OFXServerInstance -> list string * Exc Response)
    (server : OFXServerInstance) (w : world) (out : list string) (res : Response) :
  let name := Py.replace " " "_" (Py.replace "/" "+" REQ_NAME_OFX_PROFILE) in
  let headers_path := fi_dir w +:+ "/" +:+ name +:+ "-headers" in
  let body_path := fi_dir w +:+ "/" +:+ name +:+ "-body" in
  let run := send_profile_req REQ_NAME_OFX_PROFILE send_req json_dumps server w in
  (fi_dir w ∈ dirs w) ->
  (headers_path ∉ dirs w) ->
  (body_path ∉ dirs w) ->
  send_req debug REQ_NAME_OFX_PROFILE server = (out, inr res) ->
  run.1 = inr tt
  /\ files run.2 !! body_path = Some (text res)
  /\ files run.2 !! headers_path = Some (json_dumps (headers res))
  /\ (forall p, p <> headers_path -> p <> body_path ->
        files run.2 !! p = files w !! p)
  /\ req_results run.2 !! REQ_NAME_OFX_PROFILE = Some res
  /\ (forall k, k <> REQ_NAME_OFX_PROFILE ->
        req_results run.2 !! k = req_results w !! k)
  /\ dirs run.2 = dirs w
  /\ fi_dir run.2 = fi_dir w.
Proof.
  intros name headers_path body_path run Hdir _ _ Hsend.
  pose proof (send_profile_req_returns REQ_NAME_OFX_PROFILE send_req json_dumps
                server w out res Hdir Hsend) as Hrun.
  cbv zeta in Hrun. fold name in Hrun. fold headers_path body_path in Hrun.
  unfold run. rewrite Hrun.
  cbn [fst snd files req_results dirs fi_dir set_req_results set_files printed
         set_stdout set_sent].
  split; [reflexivity|]. split; [apply lookup_insert_eq|]. split.
  { rewrite lookup_insert_ne; [apply lookup_insert_eq|].
    intros H. symmetry in H. by apply artifact_paths_differ in H. }
  split.
  { intros p Hh Hb. by rewrite !lookup_insert_ne. }
  split; [apply lookup_insert_eq|]. split; [|by split].
  intros k Hk. by rewrite lookup_insert_ne.
Qed.

(** X13: the name of the two files is the request name with every '/'
    turned into '+' and every space into '_': it has the length of the
    request name and holds neither a '/' nor a space, so both files,
    "<name>-headers" and "<name>-body", lie directly in the directory
    [fi_dir]. *)
Theorem X13_artifact_name_flat
    (send_req : bool -> string -> OFXServerInstance -> list string * Exc Response)
    (server : OFXServerInstance) (w : world) (out : list string) (res : Response) :
  let run := send_profile_req REQ_NAME_OFX_PROFILE send_req json_dumps server w in
  let base := Py.replace " " "_" (Py.replace "/" "+" REQ_NAME_OFX_PROFILE) in
  (fi_dir w ∈ dirs w) ->
  (fi_dir w +:+ "/" +:+ base +:+ "-headers" ∉ dirs w) ->
  (fi_dir w +:+ "/" +:+ base +:+ "-body" ∉ dirs w) ->
  send_req debug REQ_NAME_OFX_PROFILE server = (out, inr res) ->
  exists name,
    String.length name = String.length REQ_NAME_OFX_PROFILE
    /\ Py.contains "/" name = false
    /\ Py.contains " " name = false
    /\ files run.2 !! (fi_dir w +:+ "/" +:+ name +:+ "-headers")
       = Some (json_dumps (headers res))
    /\ files run.2 !! (fi_dir w +:+ "/" +:+ name +:+ "-body") = Some (text res).
Proof.
  intros run base Hdir _ _ Hsend.
  exists base. unfold base.
  unfold run.
  rewrite (send_profile_req_returns REQ_NAME_OFX_PROFILE send_req json_dumps
             server w out res Hdir Hsend).
  cbn [snd files set_req_results set_files printed set_stdout set_sent].
  split; [by rewrite !replace_length|]. split.
  { apply replace_keeps_absent; [reflexivity|]. by apply replace_removes. }
  split; [by apply replace_removes|]. split; [|apply lookup_insert_eq].
  rewrite lookup_insert_ne; [apply lookup_insert_eq|].
  intros H. symmetry in H. by apply artifact_paths_differ in H.
Qed.

(** X14: with the directory named by [fi_dir] in place (and neither
    artifact path naming a directory), a later request for the same
    server replaces what an earlier one left: after the two, the files
    and the registry are those the later request alone would have
    produced. *)
Theorem X14_send_profile_req_overwrites
    (send_req1 send_req2 :
       bool -> string -> OFXServerInstance -> list string * Exc Response)
    (server : OFXServerInstance) (w : world) (out1 out2 : list string)
    (res1 res2 : Response) :
  let w1 := (send_profile_req REQ_NAME_OFX_PROFILE send_req1 json_dumps server w).2 in
  let w2 := (send_profile_req REQ_NAME_OFX_PROFILE send_req2 json_dumps server w1).2 in
  let alone := send_profile_req REQ_NAME_OFX_PROFILE send_req2 json_dumps server w in
  let base := Py.replace " " "_" (Py.replace "/" "+" REQ_NAME_OFX_PROFILE) in
  (fi_dir w ∈ dirs w) ->
  (fi_dir w +:+ "/" +:+ base +:+ "-headers" ∉ dirs w) ->
  (fi_dir w +:+ "/" +:+ base +:+ "-body" ∉ dirs w) ->
  send_req1 debug REQ_NAME_OFX_PROFILE server = (out1, inr res1) ->
  send_req2 debug REQ_NAME_OFX_PROFILE server = (out2, inr res2) ->
  (send_profile_req REQ_NAME_OFX_PROFILE send_req1 json_dumps server w).1 = inr tt
  /\ (send_profile_req REQ_NAME_OFX_PROFILE send_req2 json_dumps server w1).1 = inr tt
  /\ alone.1 = inr tt
  /\ files w2 = files alone.2
  /\ req_results w2 = req_results alone.2.
Proof.
  intros w1 w2 alone base Hdir _ _ Hsend1 Hsend2. unfold w2, alone, w1.
  rewrite (send_profile_req_returns REQ_NAME_OFX_PROFILE send_req1 json_dumps
             server w out1 res1 Hdir Hsend1).
  rewrite (send_profile_req_returns REQ_NAME_OFX_PROFILE send_req2 json_dumps
             server w out2 res2 Hdir Hsend2).
  cbn [snd].
  rewrite (send_profile_req_returns REQ_NAME_OFX_PROFILE send_req2 json_dumps
             server _ out2 res2) by (exact Hdir || exact Hsend2).
  cbn [fst snd files req_results fi_dir set_req_results set_files printed set_stdout
         set_sent].
  split; [reflexivity|]. split; [reflexivity|]. split; [reflexivity|]. split.
  - apply map_eq. intros p. rewrite !lookup_insert.
    by repeat case_decide.
  - by rewrite insert_insert_eq.
Qed.







Lemma format_lone_closing_brace (pre post : string) (args : list pyval) :
  brace_free pre = true ->
  match post with
  | String c _ => Ascii.eqb c "}"
  | EmptyString => false
  end = false ->
  Py.format (pre +:+ String "}" post) args
  = inl (ValueError "Single '}' encountered in format string").
Proof.
  intros Hpre Hpost. rewrite format_literal by exact Hpre.
  cbn [Py.format]. change (Ascii.eqb "}" "{") with false.
  change (Ascii.eqb "}" "}") with true. cbv iota.
  destruct post as [|c post]; [reflexivity|]. by rewrite Hpost.
Qed.

(** X17: a home directory in which a '}' stands alone before any other
    brace makes the cache path underivable: the run ends in [init] with
    a [ValueError], having printed the debug line only; nothing is
    handed to the client, no directory is created and no file is
    written, whatever the client and the parser would do. *)
Theorem X17_main_home_with_closing_brace
    (send_req : bool -> string -> OFXServerInstance -> list string * Exc Response)
    (pre post : string) (args : Namespace) (w : world) :
  brace_free pre = true ->
  match post with
  | String c _ => Ascii.eqb c "}"
  | EmptyString => false
  end = false ->
  main (pre +:+ "}" +:+ post) REQ_NAME_OFX_PROFILE new_OFXServerInstance send_req
       new_OFXFile time_asctime json_dumps str_Namespace args w
  = (inl (ValueError "Single '}' encountered in format string"),
     printed ["DEBUG: " +:+ str_Namespace args] w).
Proof.
  intros Hpre Hpost. unfold main, M.
  step print_debug_run.
  erewrite bind_raise; [reflexivity|].
  unfold init, M. rewrite FI_DIR_FMT_value.
  erewrite bind_run by (apply eval_run; reflexivity). cbv beta.
  erewrite bind_raise; [reflexivity|]. unfold eval. f_equal.
  unfold Spec.base_dir.
  change ("}" +:+ post) with (String "}" post).
  rewrite !append_assoc.
  change (String "}" post +:+ "/.ofxpostern/fi" +:+ "/{}-{}-{}")
    with (String "}" (post +:+ "/.ofxpostern/fi" +:+ "/{}-{}-{}")).
  apply format_lone_closing_brace; [exact Hpre|].
  destruct post as [|c post]; [reflexivity | exact Hpost].
Qed.

End Runs.

(** Concrete runs of the request and of the session. *)

Lemma X12_send_profile_req_persists_witness :
  let res := {| headers := {[ "Server" := "ofx" ]}; text := "OFXHEADER:100" |} in
  let send_req := fun (_ : bool) (_ : string) (_ : OFXServerInstance) =>
                    (["connecting"], inr res) : list string * Exc Response in
  let server := identity "https://ofx.example.com/ofx" "1001" "ACME" in
  let w := World [] {[ "/cache/ofx" ]} ∅ [] 0 "/cache/ofx" ∅ in
  let run := send_profile_req "OFX/PROFILE 1" send_req (fun _ => "{}") server w in
  (fi_dir w ∈ dirs w)
  /\ ("/cache/ofx/OFX+PROFILE_1-headers" ∉ dirs w)
  /\ ("/cache/ofx/OFX+PROFILE_1-body" ∉ dirs w)
  /\ send_req debug "OFX/PROFILE 1" server = (["connecting"], inr res)
  /\ files run.2 !! "/cache/ofx/OFX+PROFILE_1-body" = Some "OFXHEADER:100"
  /\ files run.2 !! "/cache/ofx/OFX+PROFILE_1-headers" = Some "{}"
  /\ req_results run.2 !! "OFX/PROFILE 1" = Some res.
Proof.
  intros res send_req server w run.
  assert (Hdir : fi_dir w ∈ dirs w) by (vm_compute; reflexivity).
  assert (Hh : "/cache/ofx/OFX+PROFILE_1-headers" ∉ dirs w)
    by (intros H; vm_compute in H; discriminate H).
  assert (Hb : "/cache/ofx/OFX+PROFILE_1-body" ∉ dirs w)
    by (intros H; vm_compute in H; discriminate H).
  destruct (X12_send_profile_req_persists "OFX/PROFILE 1" (fun _ => "{}") send_req
              server w ["connecting"] res Hdir Hh Hb eq_refl)
    as (_ & Hbody & Hheaders & _ & Hreg & _).
  split; [exact Hdir|]. split; [exact Hh|]. split; [exact Hb|].
  split; [reflexivity|]. split; [exact Hbody|]. split; [exact Hheaders | exact Hreg].
Defined.

Lemma X13_artifact_name_flat_witness :
  let res := {| headers := ∅; text := "OFXHEADER:100" |} in
  let send_req := fun (_ : bool) (_ : string) (_ : OFXServerInstance) =>
                    ([], inr res) : list string * Exc Response in
  let server := identity "https://ofx.example.com/ofx" "1001" "ACME" in
  let w := World [] {[ "/cache/ofx" ]} ∅ [] 0 "/cache/ofx" ∅ in
  let run := send_profile_req "OFX/PROFILE 1" send_req (fun _ => "{}") server w in
  (fi_dir w ∈ dirs w)
  /\ ("/cache/ofx/OFX+PROFILE_1-headers" ∉ dirs w)
  /\ ("/cache/ofx/OFX+PROFILE_1-body" ∉ dirs w)
  /\ send_req debug "OFX/PROFILE 1" server = ([], inr res)
  /\ exists name,
       Py.contains "/" name = false
       /\ files run.2 !! ("/cache/ofx" +:+ "/" +:+ name +:+ "-headers") = Some "{}"
       /\ files run.2 !! ("/cache/ofx" +:+ "/" +:+ name +:+ "-body")
          = Some "OFXHEADER:100".
Proof.
  intros res send_req server w run.
  assert (Hdir : fi_dir w ∈ dirs w) by (vm_compute; reflexivity).
  assert (Hh : "/cache/ofx/OFX+PROFILE_1-headers" ∉ dirs w)
    by (intros H; vm_compute in H; discriminate H).
  assert (Hb : "/cache/ofx/OFX+PROFILE_1-body" ∉ dirs w)
    by (intros H; vm_compute in H; discriminate H).
  split; [exact Hdir|]. split; [exact Hh|]. split; [exact Hb|].
  split; [reflexivity|].
  destruct (X13_artifact_name_flat "OFX/PROFILE 1" (fun _ => "{}") send_req
              server w [] res Hdir Hh Hb eq_refl)
    as (name & _ & Hslash & _ & Hheaders & Hbody).
  exists name. split; [exact Hslash|]. split; [exact Hheaders | exact Hbody].
Defined.

Lemma X14_send_profile_req_overwrites_witness :
  let res1 := {| headers := ∅; text := "first" |} in
  let res2 := {| headers := ∅; text := "second" |} in
  let send_req1 := fun (_ : bool) (_ : string) (_ : OFXServerInstance) =>
                     ([], inr res1) : list string * Exc Response in
  let send_req2 := fun (_ : bool) (_ : string) (_ : OFXServerInstance) =>
                     ([], inr res2) : list string * Exc Response in
  let server := identity "https://ofx.example.com/ofx" "1001" "ACME" in
  let w := World [] {[ "/cache/ofx" ]} ∅ [] 0 "/cache/ofx" ∅ in
  let w1 := (send_profile_req "PROFILE" send_req1 (fun _ => "{}") server w).2 in
  let w2 := (send_profile_req "PROFILE" send_req2 (fun _ => "{}") server w1).2 in
  (fi_dir w ∈ dirs w)
  /\ ("/cache/ofx/PROFILE-headers" ∉ dirs w)
  /\ ("/cache/ofx/PROFILE-body" ∉ dirs w)
  /\ send_req1 debug "PROFILE" server = ([], inr res1)
  /\ send_req2 debug "PROFILE" server = ([], inr res2)
  /\ files w1 !! "/cache/ofx/PROFILE-body" = Some "first"
  /\ files w2 !! "/cache/ofx/PROFILE-body" = Some "second"
  /\ files w2
     = files (send_profile_req "PROFILE" send_req2 (fun _ => "{}") server w).2.
Proof.
  intros res1 res2 send_req1 send_req2 server w w1 w2.
  assert (Hdir : fi_dir w ∈ dirs w) by (vm_compute; reflexivity).
  assert (Hh : "/cache/ofx/PROFILE-headers" ∉ dirs w)
    by (intros H; vm_compute in H; discriminate H).
  assert (Hb : "/cache/ofx/PROFILE-body" ∉ dirs w)
    by (intros H; vm_compute in H; discriminate H).
  split; [exact Hdir|]. split; [exact Hh|]. split; [exact Hb|].
  split; [reflexivity|]. split; [reflexivity|].
  split; [reflexivity|]. split; [reflexivity|].
  destruct (X14_send_profile_req_overwrites "PROFILE" (fun _ => "{}") send_req1
              send_req2 server w [] [] res1 res2 Hdir Hh Hb eq_refl eq_refl)
    as (_ & _ & _ & Hfiles & _).
  exact Hfiles.
Defined.




Lemma X17_main_home_with_closing_brace_witness :
  let new_server := fun url (f o : option string) =>
                      identity url (default "" f) (default "" o) in
  let send_req := fun (_ : bool) (_ : string) (_ : OFXServerInstance) =>
                    ([], inl (TransportError "unreachable"))
                    : list string * Exc Response in
  let args := {| args_url := "https://ofx.example.com/ofx";
                 args_fid := None; args_org := None;
                 parser_prog := "ofxpostern.py" |} in
  brace_free "/srv/a" = true
  /\ main "/srv/a}b" "PROFILE" new_server send_req
          (fun _ => inl (ParseError "not an OFX document"))
          (fun n => "t" +:+ pretty n) (fun _ => "{}") (fun _ => "Namespace()")
          args empty_world
     = (inl (ValueError "Single '}' encountered in format string"),
        printed ["DEBUG: Namespace()"] empty_world).
Proof.
  intros new_server send_req args. split; [reflexivity|].
  exact (X17_main_home_with_closing_brace "PROFILE" new_server
           (fun _ => inl (ParseError "not an OFX document"))
           (fun n => "t" +:+ pretty n) (fun _ => "{}") (fun _ => "Namespace()")
           send_req "/srv/a" "b" args empty_world eq_refl eq_refl).
Defined.
